(** * sakura_snap: the screenshot capture session and its capture loop

    A shallow embedding of [screenshot_module.py] (class [ScreenshotCapture])
    and of the background worker of [desktop_app.py]
    ([ScreenshotController._capture_worker]), with the properties of the
    capture / de-duplication step and of the loop that drives it.

    Conventions of the embedding:
    - Python [int] is [Z]; Python [float] (times, similarity scores, progress)
      is an exact rational [Q]: rounding, infinities and NaN are outside the
      model;
    - an exception is [Raise msg], where [msg] is what [str(e)] gives;
    - the file system is a finite map from paths to file contents;
    - everything the code obtains from outside (the screen, the clock, the
      image libraries, the stop flag another thread may clear) is read from a
      [Platform], indexed by a logical clock [epoch] that every observation
      advances. *)

From Stdlib Require Import ZArith QArith Qround String DecimalString List Lia Bool.
From stdpp Require Import gmap strings.
Import ListNotations.

Open Scope Z_scope.
Open Scope string_scope.

(** ** Exceptions *)

Module Py.

Inductive result (A : Type) : Type :=
| Ok (a : A)
| Raise (msg : string).

Arguments Ok {A} a.
Arguments Raise {A} msg.

(** Sequencing in a state [S] where a raised exception keeps the state
    reached so far (a Python exception does not roll back earlier writes). *)
Definition M (S A : Type) : Type := S -> S * result A.

Definition ret {S A} (a : A) : M S A := fun s => (s, Ok a).

Definition raise {S A} (msg : string) : M S A := fun s => (s, Raise msg).

Definition bind {S A B} (m : M S A) (k : A -> M S B) : M S B :=
  fun s =>
    match m s with
    | (s', Ok a) => k a s'
    | (s', Raise msg) => (s', Raise msg)
    end.

(** [try: m except Exception as e: h e] *)
Definition try_except {S A} (m : M S A) (h : string -> M S A) : M S A :=
  fun s =>
    match m s with
    | (s', Ok a) => (s', Ok a)
    | (s', Raise msg) => h msg s'
    end.

Definition get {S} : M S S := fun s => (s, Ok s).

Definition modify {S} (f : S -> S) : M S unit := fun s => (f s, Ok tt).

Definition lift {S A} (r : result A) : M S A := fun s => (s, r).

End Py.

Import Py.

Declare Scope py_scope.
Delimit Scope py_scope with py.
Notation "'do' x <- m ; k" := (bind m (fun x => k))
  (at level 10, x name, m at level 100, k at level 200) : py_scope.
Notation "'do' ' pat <- m ; k" :=
  (bind m (fun x => match x with pat => k end))
  (at level 10, pat pattern, m at level 100, k at level 200) : py_scope.
Notation "'run' m ; k" := (bind m (fun _ => k))
  (at level 10, m at level 100, k at level 200) : py_scope.

(** ** What the program reads from its environment *)

Class Platform : Type := {
  (** contents of an image file, and a decoded pixel array *)
  Raster : Type;
  Pixels : Type;
  (** [pyautogui.size()] *)
  screen_size : Z * Z;
  (** [datetime.now().strftime("%Y%m%d_%H%M%S_%f")[:-3]] *)
  timestamp_at : nat -> string;
  (** [os.path.join] *)
  os_path_join : string -> string -> string;
  (** [pyautogui.screenshot(region=...)] *)
  screenshot_at : nat -> option (Z * Z * Z * Z) -> result Raster;
  (** [Image.save(path)]: the error it raises, if any *)
  save_at : nat -> string -> result unit;
  (** [cv2.imread] on the contents of a file: [None] when it cannot decode *)
  cv2_decode : Raster -> option Pixels;
  (** [cv2.cvtColor(img, cv2.COLOR_BGR2GRAY)] *)
  cv2_cvtColor : Pixels -> result Pixels;
  (** [img.shape] of a grayscale array: rows, columns *)
  shape : Pixels -> Z * Z;
  (** [cv2.resize(img, (w, h))] *)
  cv2_resize : Pixels -> Z * Z -> result Pixels;
  (** [skimage.metrics.structural_similarity] *)
  ssim : Pixels -> Pixels -> result Q;
  (** [time.time()] *)
  time_at : nat -> Q;
  (** the controller's [is_capturing] flag as the worker reads it *)
  capturing_at : nat -> bool
}.

(** ** screenshot_module.py *)

Definition DEFAULT_DURATION : Z := 60.
Definition DEFAULT_INTERVAL : Z := 5.
Definition DEFAULT_SIMILARITY_THRESHOLD : Z := 95.
Definition MIN_REGION_SIZE : Z := 1.

Record ScreenshotCapture : Type := {
  save_path : option string;
  duration : Z;
  interval : Z;
  region : option (list Z);
  is_running : bool;
  similarity_threshold : Z;
  last_screenshot_path : option string
}.

(** [ScreenshotCapture.__init__] *)
Definition init : ScreenshotCapture :=
  {| save_path := None;
     duration := DEFAULT_DURATION;
     interval := DEFAULT_INTERVAL;
     region := None;
     is_running := false;
     similarity_threshold := DEFAULT_SIMILARITY_THRESHOLD;
     last_screenshot_path := None |}.

(** [ScreenshotCapture.setup] *)
Definition setup (self : ScreenshotCapture) (save_path' : string)
    (duration' interval' : Z) (region' : option (list Z))
    (similarity_threshold' : Z) : ScreenshotCapture :=
  {| save_path := Some save_path';
     duration := duration';
     interval := interval';
     region := region';
     is_running := is_running self;
     similarity_threshold := similarity_threshold';
     last_screenshot_path := None |}.

(** [ScreenshotCapture.stop] *)
Definition stop (self : ScreenshotCapture) : ScreenshotCapture :=
  {| save_path := save_path self;
     duration := duration self;
     interval := interval self;
     region := region self;
     is_running := false;
     similarity_threshold := similarity_threshold self;
     last_screenshot_path := last_screenshot_path self |}.

Definition set_last_screenshot_path (self : ScreenshotCapture)
    (p : option string) : ScreenshotCapture :=
  {| save_path := save_path self;
     duration := duration self;
     interval := interval self;
     region := region self;
     is_running := is_running self;
     similarity_threshold := similarity_threshold self;
     last_screenshot_path := p |}.

Section Session.

Context {P : Platform}.

(** The object together with the part of the world its methods touch. *)
Record State : Type := {
  self : ScreenshotCapture;
  files : gmap string Raster;
  epoch : nat
}.

Definition with_self (s : State) (c : ScreenshotCapture) : State :=
  {| self := c; files := files s; epoch := epoch s |}.

Definition with_files (s : State) (f : gmap string Raster) : State :=
  {| self := self s; files := f; epoch := epoch s |}.

(** One observation of the environment: its index, and the clock moves on. *)
Definition tick : M State nat :=
  fun s => ({| self := self s; files := files s; epoch := S (epoch s) |},
            Ok (epoch s)).

(** [x, y, width, height = region] *)
Definition unpack4 (region : list Z) : result (Z * Z * Z * Z) :=
  match region with
  | [x; y; width; height] => Ok (x, y, width, height)
  | _ :: _ :: _ :: _ :: _ :: _ => Raise "too many values to unpack (expected 4)"
  | _ =>
      Raise ("not enough values to unpack (expected 4, got "
             ++ NilEmpty.string_of_uint (Nat.to_uint (length region)) ++ ")")
  end.

(** [ScreenshotCapture._validate_region] *)
Definition _validate_region (region : list Z) : result (Z * Z * Z * Z) :=
  match unpack4 region with
  | Raise msg => Raise msg
  | Ok (x, y, width, height) =>
      let '(screen_width, screen_height) := screen_size in
      let x := Z.max 0 (Z.min x (screen_width - 1)) in
      let y := Z.max 0 (Z.min y (screen_height - 1)) in
      let max_width := screen_width - x in
      let max_height := screen_height - y in
      let width := Z.max MIN_REGION_SIZE (Z.min width max_width) in
      let height := Z.max MIN_REGION_SIZE (Z.min height max_height) in
      Ok (x, y, width, height)
  end.

(** [ScreenshotCapture._take_screenshot]; [if self.region:] is false for
    [None] and for the empty list. *)
Definition _take_screenshot : M State Raster :=
  (do s <- get ;
   match region (self s) with
   | None | Some [] =>
       do n <- tick ; lift (screenshot_at n None)
   | Some r =>
       do validated_region <- lift (_validate_region r) ;
       do n <- tick ; lift (screenshot_at n (Some validated_region))
   end)%py.

(** [os.path.exists]: the empty path never exists. *)
Definition os_path_exists (fs : gmap string Raster) (p : string) : bool :=
  negb (String.eqb p "") && bool_decide (is_Some (fs !! p)).

(** [os.remove] *)
Definition os_remove (p : string) : M State unit :=
  fun s =>
    match files s !! p with
    | Some _ => (with_files s (delete p (files s)), Ok tt)
    | None =>
        (s, Raise ("[Errno 2] No such file or directory: '" ++ p ++ "'"))
    end.

(** [cv2.imread]: [None] for a missing or undecodable file. *)
Definition cv2_imread (fs : gmap string Raster) (p : string) : option Pixels :=
  match fs !! p with
  | Some data => cv2_decode data
  | None => None
  end.

(** [ScreenshotCapture._resize_images_to_match] *)
Definition _resize_images_to_match (img1 img2 : Pixels)
    : result (Pixels * Pixels) :=
  if bool_decide (shape img1 = shape img2) then Ok (img1, img2)
  else
    let h := Z.min (fst (shape img1)) (fst (shape img2)) in
    let w := Z.min (snd (shape img1)) (snd (shape img2)) in
    match cv2_resize img1 (w, h) with
    | Raise msg => Raise msg
    | Ok img1' =>
        match cv2_resize img2 (w, h) with
        | Raise msg => Raise msg
        | Ok img2' => Ok (img1', img2')
        end
    end.

(** The [try] block of [calculate_similarity]. *)
Definition calculate_similarity_try (image1_path image2_path : string)
    : M State Q :=
  (do s <- get ;
   let img1 := cv2_imread (files s) image1_path in
   let img2 := cv2_imread (files s) image2_path in
   match img1, img2 with
   | Some img1, Some img2 =>
       do gray1 <- lift (cv2_cvtColor img1) ;
       do gray2 <- lift (cv2_cvtColor img2) ;
       do '(gray1, gray2) <- lift (_resize_images_to_match gray1 gray2) ;
       do similarity_index <- lift (ssim gray1 gray2) ;
       ret (similarity_index * 100)%Q
   | _, _ => ret 0%Q
   end)%py.

(** [ScreenshotCapture.calculate_similarity] *)
Definition calculate_similarity (image1_path image2_path : string)
    : M State Q :=
  try_except (calculate_similarity_try image1_path image2_path)
    (fun _ => ret 0%Q).

(** The score [calculate_similarity] gives in state [s]. *)
Definition similarity_of (s : State) (image1_path image2_path : string) : Q :=
  match snd (calculate_similarity image1_path image2_path s) with
  | Ok score => score
  | Raise _ => 0%Q
  end.

(** [self.last_screenshot_path and os.path.exists(self.last_screenshot_path)]:
    [None] and the empty string are falsy. *)
Definition has_baseline (s : State) : bool :=
  match last_screenshot_path (self s) with
  | Some p => negb (String.eqb p "") && os_path_exists (files s) p
  | None => false
  end.

(** [ScreenshotCapture._check_and_handle_duplicate] *)
Definition _check_and_handle_duplicate (filename filepath : string)
    : M State (option string * option Q) :=
  let keep : M State (option string * option Q) :=
    (run modify (fun s => with_self s
                   (set_last_screenshot_path (self s) (Some filepath))) ;
     ret (Some filename, None))%py in
  (do s <- get ;
   if has_baseline s then
     match last_screenshot_path (self s) with
     | Some last =>
         do similarity <- calculate_similarity last filepath ;
         if Qle_bool (inject_Z (similarity_threshold (self s))) similarity
         then (run os_remove filepath ; ret (None, Some similarity))
         else keep
     | None => keep
     end
   else keep)%py.

(** The [try] block of [capture]: name the file, take the screenshot and
    save it; any exception is re-raised with the module's prefix. *)
Definition capture_write : M State (string * string) :=
  try_except
    (do n <- tick ;
     let filename := "screenshot_" ++ timestamp_at n ++ ".png" in
     do s <- get ;
     do filepath <-
       match save_path (self s) with
       | Some dir => ret (os_path_join dir filename)
       | None =>
           raise "expected str, bytes or os.PathLike object, not NoneType"
       end ;
     do screenshot <- _take_screenshot ;
     do k <- tick ;
     run lift (save_at k filepath) ;
     run modify (fun s => with_files s (<[filepath := screenshot]> (files s))) ;
     ret (filename, filepath))%py
    (fun e => raise ("スクリーンショット取得に失敗しました: " ++ e)).

(** [ScreenshotCapture.capture] *)
Definition capture : M State (option string * option Q) :=
  (do '(filename, filepath) <- capture_write ;
   _check_and_handle_duplicate filename filepath)%py.

(** The two ways out of [_check_and_handle_duplicate]. *)
Definition kept (s : State) (filename filepath : string)
    : State * result (option string * option Q) :=
  (with_self s (set_last_screenshot_path (self s) (Some filepath)),
   Ok (Some filename, None)).

Definition dropped (s : State) (filepath : string) (similarity : Q)
    : State * result (option string * option Q) :=
  (with_files s (delete filepath (files s)), Ok (None, Some similarity)).

End Session.

(** ** desktop_app.py: the capture worker *)

(** What the worker schedules on the UI thread with [root.after(0, ...)]. *)
Inductive Event : Type :=
| update_progress (count elapsed remaining : Z) (progress : Q)
    (filename : string)
| update_duplicate_status (similarity : option Q)
| update_time_info (elapsed remaining : Z) (progress : Q)
| show_error (error_msg : string)
| capture_complete (total_count duplicate_count : Z).

(** How one pass through the body of the [while] leaves it. *)
Inductive Flow : Type := Continue | Break.

(** [int(x)] on a float truncates towards zero. *)
Definition py_int (x : Q) : Z := Z.quot (Qnum x) (Z.pos (Qden x)).

(** [x / d] with a float [x] and an int [d] *)
Definition float_div (x : Q) (d : Z) : result Q :=
  if (d =? 0)%Z then Raise "float division by zero" else Ok (x / inject_Z d)%Q.

(** [ScreenshotController._process_capture_result]: [capture] always
    returns a tuple. *)
Definition _process_capture_result (result : option string * option Q)
    : option string * option Q :=
  let '(filename, similarity) := result in (filename, similarity).

Section Controller.

Context {P : Platform}.

(** The worker's locals, the session it drives and the callbacks it has
    scheduled so far, oldest first. *)
Record Worker : Type := {
  session : State;
  count : Z;
  duplicate_count : Z;
  queue : list Event
}.

Definition in_session {A} (m : M State A) : M Worker A :=
  fun w =>
    let '(s', r) := m (session w) in
    ({| session := s'; count := count w;
        duplicate_count := duplicate_count w; queue := queue w |}, r).

(** [self.app.root.after(0, callback, args...)] *)
Definition root_after (ev : Event) : M Worker unit :=
  modify (fun w =>
    {| session := session w; count := count w;
       duplicate_count := duplicate_count w; queue := queue w ++ [ev] |}).

Definition incr_count : M Worker unit :=
  modify (fun w =>
    {| session := session w; count := count w + 1;
       duplicate_count := duplicate_count w; queue := queue w |}).

Definition incr_duplicate_count : M Worker unit :=
  modify (fun w =>
    {| session := session w; count := count w;
       duplicate_count := duplicate_count w + 1; queue := queue w |}).

(** [time.time()] *)
Definition time_time : M State Q :=
  (do n <- tick ; ret (time_at n))%py.

(** [time.sleep(secs)] refuses a negative length. *)
Definition time_sleep (secs : Z) : M State unit :=
  if (secs <? 0)%Z then raise "sleep length must be non-negative"
  else (run tick ; ret tt)%py.

(** The body of the [while] of [_capture_worker]: the [try] block and its
    [except Exception] handler. *)
Definition iteration (start_time : Q) : M Worker Flow :=
  try_except
    (do result <- in_session capture ;
     let '(filename, similarity) := _process_capture_result result in
     do now <- in_session time_time ;
     let elapsed := (now - start_time)%Q in
     do w <- get ;
     let duration := duration (self (session w)) in
     let remaining := (inject_Z duration - elapsed)%Q in
     do ratio <- lift (float_div elapsed duration) ;
     let progress := (ratio * 100)%Q in
     run match filename with
         | None =>
             run incr_duplicate_count ;
             run root_after (update_duplicate_status similarity) ;
             root_after (update_time_info (py_int elapsed)
                           (py_int remaining) progress)
         | Some filename =>
             run incr_count ;
             do w <- get ;
             root_after (update_progress (count w) (py_int elapsed)
                           (py_int remaining) progress filename)
         end ;
     if Qle_bool (inject_Z duration) elapsed then ret Break
     else
       (run in_session (time_sleep (interval (self (session w)))) ;
        ret Continue))%py
    (fun e => (run root_after (show_error e) ; ret Break)%py).

(** [while self.is_capturing: ...]; [None] when [fuel] passes through the
    body were not enough to leave the loop. *)
Fixpoint worker_loop (fuel : nat) (start_time : Q) (w : Worker)
    : option (Worker * result unit) :=
  match fuel with
  | O => None
  | S fuel' =>
      if capturing_at (epoch (session w)) then
        match iteration start_time w with
        | (w', Ok Continue) => worker_loop fuel' start_time w'
        | (w', Ok Break) => Some (w', Ok tt)
        | (w', Raise e) => Some (w', Raise e)
        end
      else Some (w, Ok tt)
  end.

(** The worker's state when it enters the loop. *)
Definition enter (s : State) : Worker :=
  {| session := s; count := 0; duplicate_count := 0; queue := [] |}.

(** [ScreenshotController._capture_worker] *)
Definition _capture_worker (fuel : nat) (s : State)
    : option (Worker * result unit) :=
  match time_time s with
  | (s0, Raise e) => Some (enter s0, Raise e)
  | (s0, Ok start_time) =>
      match worker_loop fuel start_time (enter s0) with
      | None => None
      | Some (w, Raise e) => Some (w, Raise e)
      | Some (w, Ok _) =>
          Some (root_after
                  (capture_complete (count w) (duplicate_count w)) w)
      end
  end.

(** [k] passes through the body, none of which leaves the loop. *)
Fixpoint passes (k : nat) (start_time : Q) (w : Worker) : option Worker :=
  match k with
  | O => Some w
  | S k' =>
      if capturing_at (epoch (session w)) then
        match iteration start_time w with
        | (w', Ok Continue) => passes k' start_time w'
        | _ => None
        end
      else None
  end.

End Controller.

(** How many captures the UI was told were kept, and how many discarded. *)
(** [f(f(region))], the tuple read back as a list. *)
Definition validate_twice {P : Platform} (region : list Z)
    : result (Z * Z * Z * Z) :=
  match _validate_region region with
  | Ok (x, y, width, height) => _validate_region [x; y; width; height]
  | Raise msg => Raise msg
  end.

Definition is_kept (ev : Event) : bool :=
  match ev with update_progress _ _ _ _ _ => true | _ => false end.

Definition is_duplicate (ev : Event) : bool :=
  match ev with update_duplicate_status _ => true | _ => false end.

Definition is_summary (ev : Event) : bool :=
  match ev with capture_complete _ _ => true | _ => false end.

Definition tally (p : Event -> bool) (evs : list Event) : Z :=
  Z.of_nat (length (List.filter p evs)).

(** ** Vocabulary of the statements *)

Section Vocabulary.

Context {P : Platform}.

(** What a status callback must carry, for a run started at [t0] with
    duration [d]: the time of some reading of the clock since [t0], and the
    percentage computed from it, unclamped. *)
Definition status_of_clock (t0 : Q) (d : Z) (ev : Event) : Prop :=
  match ev with
  | update_progress _ e r p _ | update_time_info e r p =>
      exists n : nat,
        let elapsed := (time_at n - t0)%Q in
        d <> 0 /\
        p = (elapsed / inject_Z d * 100)%Q /\
        e = py_int elapsed /\
        r = py_int (inject_Z d - elapsed)%Q /\
        (0 < d -> (inject_Z d < elapsed)%Q -> (100 < p)%Q)
  | _ => True
  end.

(** The callbacks one capture that returned gives rise to. *)
Definition reported (w : Worker) (t0 now : Q) (d : Z)
    (r : option string * option Q) : list Event :=
  let elapsed := (now - t0)%Q in
  let remaining := (inject_Z d - elapsed)%Q in
  let progress := (elapsed / inject_Z d * 100)%Q in
  match r with
  | (Some filename, _) =>
      [update_progress (count w + 1) (py_int elapsed) (py_int remaining)
         progress filename]
  | (None, similarity) =>
      [update_duplicate_status similarity;
       update_time_info (py_int elapsed) (py_int remaining) progress]
  end.

(** The worker's counters agree with what it has reported, and no summary
    has been scheduled while the loop runs. *)
Definition counts_agree (w : Worker) : Prop :=
  count w = tally is_kept (queue w) /\
  duplicate_count w = tally is_duplicate (queue w) /\
  tally is_summary (queue w) = 0.

Definition loop_invariant (t0 : Q) (d : Z) (w : Worker) : Prop :=
  duration (self (session w)) = d /\
  Forall (status_of_clock t0 d) (queue w) /\
  counts_agree w.

End Vocabulary.

(** ** A concrete platform for the examples

    Images are integers (a negative file content does not decode), two
    images are fully similar when equal and 40% similar otherwise; the
    screen is 1920 x 1080.  The frames the screen shows, the clock and the
    stop flag are given per epoch. *)

Module Demo.

Definition platform (frames : nat -> result Z) (clock : nat -> Q)
    (flag : nat -> bool) : Platform :=
  {| Raster := Z;
     Pixels := Z;
     screen_size := (1920, 1080);
     timestamp_at := fun n => NilEmpty.string_of_uint (Nat.to_uint n);
     os_path_join := fun dir name => dir ++ "/" ++ name;
     screenshot_at := fun n _ => frames n;
     save_at := fun _ _ => Ok tt;
     cv2_decode := fun data => if (data <? 0)%Z then None else Some data;
     cv2_cvtColor := fun img => Ok img;
     shape := fun _ => (1080, 1920);
     cv2_resize := fun img _ => Ok img;
     ssim := fun a b => if (a =? b)%Z then Ok 1%Q else Ok (2 # 5)%Q;
     time_at := clock;
     capturing_at := flag |}.

(** The screen never changes, a second passes per epoch, nobody stops. *)
Definition still : Platform :=
  platform (fun _ => Ok 7) (fun n => inject_Z (Z.of_nat n)) (fun _ => true).

(** The screen changes at every capture. *)
Definition moving : Platform :=
  platform (fun n => Ok (Z.of_nat n)) (fun n => inject_Z (Z.of_nat n))
    (fun _ => true).

(** The screen cannot be grabbed from epoch 5 on: the second capture of a
    run started at epoch 0 fails. *)
Definition failing : Platform :=
  platform (fun n => if (n <? 5)%nat then Ok 7 else Raise "screen grab failed")
    (fun n => inject_Z (Z.of_nat n)) (fun _ => true).

(** A session configured on object [init] with an empty output folder. *)
Definition configured {P : Platform} (duration interval threshold : Z)
    : State :=
  {| self := setup init "out" duration interval None threshold;
     files := ∅;
     epoch := 0 |}.

(** A ten-second run every five seconds at threshold 95, before its first
    capture and after it. *)
Definition still_start : @State still := configured 10 5 95.

Definition still_second : @State still := fst (capture still_start).

(** A one-minute run on the platform whose second capture fails. *)
Definition failing_start : @State failing := configured 60 5 95.

(** A session whose last kept image, "out/base.png", is on disk but does
    not decode, at a given threshold. *)
Definition unreadable_baseline (threshold : Z) : @State still :=
  {| self := set_last_screenshot_path
               (setup init "out" 60 5 None threshold) (Some "out/base.png");
     files := {[ "out/base.png" := (-1)%Z ]};
     epoch := 0 |}.

(** That session after [n] captures. *)
Definition unreadable_after (threshold : Z) (n : nat) : @State still :=
  Nat.iter n (fun s => fst (capture s)) (unreadable_baseline threshold).

End Demo.

(** ** screenshot_module.py: the region selector *)

(** A mouse event, as far as the handlers read it. *)
Record MouseEvent : Type := { event_x : Z; event_y : Z }.

(** [self.root]: [None] until the overlay is created, then a window that
    is up until it is destroyed. *)
Inductive Window : Type := NoWindow | WindowUp | WindowDestroyed.

(** [RegionSelector]: the four coordinates and the overlay window
    [self.root]. *)
Record RegionSelector : Type := {
  start_x : option Z;
  start_y : option Z;
  end_x : option Z;
  end_y : option Z;
  window : Window
}.

(** [RegionSelector.__init__] *)
Definition selector_init : RegionSelector :=
  {| start_x := None; start_y := None; end_x := None; end_y := None;
     window := NoWindow |}.

(** [RegionSelector._create_fullscreen_window] *)
Definition _create_fullscreen_window (sel : RegionSelector) : RegionSelector :=
  {| start_x := start_x sel; start_y := start_y sel;
     end_x := end_x sel; end_y := end_y sel; window := WindowUp |}.

(** [self.root.destroy()]: an [AttributeError] while [self.root] is
    [None]; destroying a window again does nothing. *)
Definition root_destroy : M RegionSelector unit :=
  fun sel =>
    match window sel with
    | NoWindow =>
        (sel, Raise "'NoneType' object has no attribute 'destroy'")
    | _ =>
        ({| start_x := start_x sel; start_y := start_y sel;
            end_x := end_x sel; end_y := end_y sel;
            window := WindowDestroyed |}, Ok tt)
    end.

(** [RegionSelector.on_click] *)
Definition on_click (sel : RegionSelector) (event : MouseEvent)
    : RegionSelector :=
  {| start_x := Some (event_x event); start_y := Some (event_y event);
     end_x := end_x sel; end_y := end_y sel; window := window sel |}.

(** [RegionSelector.on_release] *)
Definition on_release (sel : RegionSelector) (event : MouseEvent)
    : RegionSelector :=
  {| start_x := start_x sel; start_y := start_y sel;
     end_x := Some (event_x event); end_y := Some (event_y event);
     window := window sel |}.

(** [RegionSelector.cancel_selection]: the coordinates are cleared before
    the window is destroyed. *)
Definition cancel_selection : M RegionSelector unit :=
  (run modify (fun sel =>
         {| start_x := None; start_y := None; end_x := None; end_y := None;
            window := window sel |}) ;
   root_destroy)%py.

(** [all([self.start_x is not None, ..., self.end_y is not None])] *)
Definition selection_complete (sel : RegionSelector) : bool :=
  forallb (fun b : bool => b)
    [bool_decide (start_x sel <> None); bool_decide (start_y sel <> None);
     bool_decide (end_x sel <> None); bool_decide (end_y sel <> None)].

(** [RegionSelector.confirm_selection]: its value here is the warning it
    shows when there is nothing to confirm. *)
Definition confirm_selection : M RegionSelector (option string) :=
  (do sel <- get ;
   if selection_complete sel then (run root_destroy ; ret None)
   else ret (Some "範囲を選択してください"))%py.

Section Selector.

Context {P : Platform}.

(** [RegionSelector._adjust_region_to_screen] *)
Definition _adjust_region_to_screen (x y width height : Z) : list Z :=
  let '(screen_width, screen_height) := screen_size in
  let x := Z.max 0 (Z.min x (screen_width - width)) in
  let y := Z.max 0 (Z.min y (screen_height - height)) in
  let width := if (screen_width <? x + width)%Z then screen_width - x
               else width in
  let height := if (screen_height <? y + height)%Z then screen_height - y
                else height in
  [x; y; width; height].

(** [RegionSelector._calculate_selected_region] *)
Definition _calculate_selected_region (sel : RegionSelector)
    : option (list Z) :=
  if negb (selection_complete sel) then None
  else
    match start_x sel, start_y sel, end_x sel, end_y sel with
    | Some sx, Some sy, Some ex, Some ey =>
        let x := Z.min sx ex in
        let y := Z.min sy ey in
        let width := Z.abs (ex - sx) in
        let height := Z.abs (ey - sy) in
        let width := Z.max MIN_REGION_SIZE width in
        let height := Z.max MIN_REGION_SIZE height in
        Some (_adjust_region_to_screen x y width height)
    | _, _, _, _ => None
    end.

(** The name [capture] gives the file it is about to write in state [s]. *)
Definition next_filename (s : State) : string :=
  "screenshot_" ++ timestamp_at (epoch s) ++ ".png".

End Selector.

(** The same object with another threshold. *)
Definition with_threshold (c : ScreenshotCapture) (t : Z)
    : ScreenshotCapture :=
  {| save_path := save_path c;
     duration := duration c;
     interval := interval c;
     region := region c;
     is_running := is_running c;
     similarity_threshold := t;
     last_screenshot_path := last_screenshot_path c |}.

(** ** screenshot_module.py: the histogram comparator *)

(** What [calculate_histogram_similarity] asks of OpenCV beyond the
    [Platform]. *)
Class HistogramLib {P : Platform} : Type := {
  Histogram : Type;
  (** [cv2.cvtColor(img, cv2.COLOR_BGR2HSV)] *)
  cv2_cvtColor_hsv : Pixels -> result Pixels;
  (** [cv2.calcHist([hsv], [0, 1, 2], None, [50, 60, 60],
      [0, 180, 0, 256, 0, 256])] *)
  cv2_calcHist : Pixels -> result Histogram;
  (** [cv2.compareHist(hist1, hist2, cv2.HISTCMP_CORREL)] *)
  cv2_compareHist : Histogram -> Histogram -> result Q
}.

Section HistogramComparator.

Context {P : Platform} {H : HistogramLib}.

(** The [try] block of [calculate_histogram_similarity]. *)
Definition calculate_histogram_similarity_try
    (image1_path image2_path : string) : M State Q :=
  (do s <- get ;
   let img1 := cv2_imread (files s) image1_path in
   let img2 := cv2_imread (files s) image2_path in
   match img1, img2 with
   | Some img1, Some img2 =>
       do hsv1 <- lift (cv2_cvtColor_hsv img1) ;
       do hsv2 <- lift (cv2_cvtColor_hsv img2) ;
       do hist1 <- lift (cv2_calcHist hsv1) ;
       do hist2 <- lift (cv2_calcHist hsv2) ;
       do correlation <- lift (cv2_compareHist hist1 hist2) ;
       ret (correlation * 100)%Q
   | _, _ => ret 0%Q
   end)%py.

(** [ScreenshotCapture.calculate_histogram_similarity] *)
Definition calculate_histogram_similarity
    (image1_path image2_path : string) : M State Q :=
  try_except (calculate_histogram_similarity_try image1_path image2_path)
    (fun _ => ret 0%Q).

End HistogramComparator.

(** ** desktop_app.py: the callbacks on the UI thread *)

Definition MAX_RECENT_ITEMS : nat := 20.

(** What the callbacks format or read that is not modelled further. *)
Class Formats : Type := {
  (** [f"{x:.1f}"] *)
  format_1f : Q -> string;
  (** [datetime.now().strftime('%H:%M:%S')], per reading *)
  clock_text : nat -> string
}.

(** [f"{n}"] for an int *)
Definition format_int (n : Z) : string := NilEmpty.string_of_int (Z.to_int n).

Module ScreenshotApp.

(** The widgets and flags the callbacks touch: the controller's
    [is_capturing] and its [screenshot_capture], the two buttons (enabled
    or not), the labels, the progress variable, the list of recent
    captures (top first), the message boxes shown (oldest first) and the
    number of readings of the clock. *)
Record App : Type := {
  is_capturing : bool;
  screenshot_capture : ScreenshotCapture;
  start_button : bool;
  stop_button : bool;
  status_label : string;
  count_label : string;
  elapsed_label : string;
  remaining_label : string;
  progress_var : Q;
  progress_label : string;
  recent_listbox : list string;
  dialogs : list string;
  readings : nat
}.

(** The window as [GUIBuilder] creates it. *)
Definition created : App :=
  {| is_capturing := false;
     screenshot_capture := init;
     start_button := true;
     stop_button := false;
     status_label := "待機中";
     count_label := "0枚";
     elapsed_label := "0秒";
     remaining_label := "-";
     progress_var := 0%Q;
     progress_label := "0%";
     recent_listbox := [];
     dialogs := [];
     readings := 0 |}.

Definition set_run_state (a : App) (capturing : bool)
    (c : ScreenshotCapture) (start stop : bool) (status : string) : App :=
  {| is_capturing := capturing;
     screenshot_capture := c;
     start_button := start;
     stop_button := stop;
     status_label := status;
     count_label := count_label a;
     elapsed_label := elapsed_label a;
     remaining_label := remaining_label a;
     progress_var := progress_var a;
     progress_label := progress_label a;
     recent_listbox := recent_listbox a;
     dialogs := dialogs a;
     readings := readings a |}.

Definition set_recent (a : App) (l : list string) (n : nat) : App :=
  {| is_capturing := is_capturing a;
     screenshot_capture := screenshot_capture a;
     start_button := start_button a;
     stop_button := stop_button a;
     status_label := status_label a;
     count_label := count_label a;
     elapsed_label := elapsed_label a;
     remaining_label := remaining_label a;
     progress_var := progress_var a;
     progress_label := progress_label a;
     recent_listbox := l;
     dialogs := dialogs a;
     readings := n |}.

Definition set_time_info {F : Formats} (a : App) (count : string)
    (elapsed remaining : Z) (progress : Q) : App :=
  {| is_capturing := is_capturing a;
     screenshot_capture := screenshot_capture a;
     start_button := start_button a;
     stop_button := stop_button a;
     status_label := status_label a;
     count_label := count;
     elapsed_label := format_int elapsed ++ "秒";
     remaining_label := format_int remaining ++ "秒";
     progress_var := progress;
     progress_label := format_1f progress ++ "%";
     recent_listbox := recent_listbox a;
     dialogs := dialogs a;
     readings := readings a |}.

Definition messagebox (a : App) (text : string) : App :=
  {| is_capturing := is_capturing a;
     screenshot_capture := screenshot_capture a;
     start_button := start_button a;
     stop_button := stop_button a;
     status_label := status_label a;
     count_label := count_label a;
     elapsed_label := elapsed_label a;
     remaining_label := remaining_label a;
     progress_var := progress_var a;
     progress_label := progress_label a;
     recent_listbox := recent_listbox a;
     dialogs := dialogs a ++ [text];
     readings := readings a |}.

Section Callbacks.

Context {F : Formats}.

(** [ScreenshotApp._limit_recent_list]: [delete(tk.END)] removes the last
    entry. *)
Definition _limit_recent_list (a : App) : App :=
  if (MAX_RECENT_ITEMS <? length (recent_listbox a))%nat
  then set_recent a (removelast (recent_listbox a)) (readings a)
  else a.

(** [self.recent_listbox.insert(0, f"{timestamp} - {text}")] with the
    time read from the clock, then [_limit_recent_list]. *)
Definition add_recent (a : App) (text : string) : App :=
  let timestamp := clock_text (readings a) in
  _limit_recent_list
    (set_recent a ((timestamp ++ " - " ++ text) :: recent_listbox a)
       (S (readings a))).

(** [ScreenshotApp.update_progress]; [if filename:] is false for the
    empty name. *)
Definition update_progress (a : App) (count elapsed remaining : Z)
    (progress : Q) (filename : string) : App :=
  let a := set_time_info a (format_int count ++ "枚") elapsed remaining
             progress in
  if String.eqb filename "" then a else add_recent a filename.

(** [ScreenshotApp.update_duplicate_status] *)
Definition update_duplicate_status (a : App) (similarity : Q) : App :=
  add_recent a ("重複検出 (類似度: " ++ format_1f similarity ++ "%)").

(** [ScreenshotApp.update_time_info] *)
Definition update_time_info (a : App) (elapsed remaining : Z)
    (progress : Q) : App :=
  set_time_info a (count_label a) elapsed remaining progress.

(** [ScreenshotController.stop_capture] *)
Definition stop_capture (a : App) : App :=
  if negb (is_capturing a) then a
  else set_run_state a false (stop (screenshot_capture a)) true false
         "停止中...".

(** [ScreenshotApp.show_error] *)
Definition show_error (a : App) (error_msg : string) : App :=
  stop_capture
    (messagebox a ("キャプチャ中にエラーが発生しました: " ++ error_msg)).

(** [ScreenshotApp.capture_complete]; the text of the dialog has its line
    breaks as line feeds. *)
Definition capture_complete (a : App) (total_count duplicate_count : Z)
    : App :=
  messagebox (set_run_state a false (screenshot_capture a) true false "完了")
    ("キャプチャが完了しました！" ++ String (Ascii.ascii_of_nat 10) ""
     ++ "撮影数: " ++ format_int total_count ++ "枚"
     ++ String (Ascii.ascii_of_nat 10) ""
     ++ "重複削除: " ++ format_int duplicate_count ++ "枚").

(** [ScreenshotController._update_ui_for_start] *)
Definition _update_ui_for_start (a : App) : App :=
  let a := set_run_state a true (screenshot_capture a) false true
             "撮影中..." in
  {| is_capturing := is_capturing a;
     screenshot_capture := screenshot_capture a;
     start_button := start_button a;
     stop_button := stop_button a;
     status_label := status_label a;
     count_label := count_label a;
     elapsed_label := elapsed_label a;
     remaining_label := remaining_label a;
     progress_var := 0%Q;
     progress_label := progress_label a;
     recent_listbox := [];
     dialogs := dialogs a;
     readings := readings a |}.

End Callbacks.

(** The start button is enabled exactly when no capture is running, the
    stop button exactly when one is. *)
Definition buttons_follow_flag (a : App) : Prop :=
  start_button a = negb (is_capturing a) /\ stop_button a = is_capturing a.

End ScreenshotApp.

Section Dispatch.

Context {F : Formats}.

(** The UI thread running one callback the worker scheduled.  A duplicate
    is always reported with its score; formatting [None] would raise in
    the callback, which Tk reports and drops. *)
Definition dispatch (a : ScreenshotApp.App) (ev : Event)
    : ScreenshotApp.App :=
  match ev with
  | update_progress count elapsed remaining progress filename =>
      ScreenshotApp.update_progress a count elapsed remaining progress filename
  | update_duplicate_status (Some similarity) =>
      ScreenshotApp.update_duplicate_status a similarity
  | update_duplicate_status None => a
  | update_time_info elapsed remaining progress =>
      ScreenshotApp.update_time_info a elapsed remaining progress
  | show_error error_msg => ScreenshotApp.show_error a error_msg
  | capture_complete total_count duplicate_count =>
      ScreenshotApp.capture_complete a total_count duplicate_count
  end.

(** The callbacks of a queue, in the order they were scheduled. *)
Definition dispatch_all (a : ScreenshotApp.App) (evs : list Event)
    : ScreenshotApp.App :=
  fold_left dispatch evs a.

End Dispatch.

(** The running count a callback carries, when it reports a kept
    capture. *)
Definition kept_count (ev : Event) : option Z :=
  match ev with update_progress c _ _ _ _ => Some c | _ => None end.

(** The count the last [update_progress] of a queue carries, [c0] if it
    has none. *)
Definition last_kept_count (evs : list Event) (c0 : Z) : Z :=
  fold_left (fun acc ev => default acc (kept_count ev)) evs c0.

(** ** More concrete material for the examples *)

Module Samples.

(** Images that are their own shape (rows, columns), resized to what is
    asked. *)
Definition sized : Platform :=
  {| Raster := Z * Z;
     Pixels := Z * Z;
     screen_size := (1920, 1080);
     timestamp_at := fun n => NilEmpty.string_of_uint (Nat.to_uint n);
     os_path_join := fun dir name => dir ++ "/" ++ name;
     screenshot_at := fun _ _ => Ok (1080, 1920);
     save_at := fun _ _ => Ok tt;
     cv2_decode := fun data => Some data;
     cv2_cvtColor := fun img => Ok img;
     shape := fun img => img;
     cv2_resize := fun _ size => Ok (snd size, fst size);
     ssim := fun a b => Ok 1%Q;
     time_at := fun n => inject_Z (Z.of_nat n);
     capturing_at := fun _ => true |}.

(** The still screen of [Demo], stopped by the user during the first
    sleep of the worker. *)
Definition stopping : Platform :=
  Demo.platform (fun _ => Ok 7) (fun n => inject_Z (Z.of_nat n))
    (fun n => (n <? 3)%nat).

(** Numbers shown by their integer part, and a clock that counts. *)
Definition plain : Formats :=
  {| format_1f := fun x => format_int (Qfloor x) ++ ".0";
     clock_text := fun n => NilEmpty.string_of_uint (Nat.to_uint n) |}.

(** A session with a given region, folder "out", before any capture. *)
Definition with_region {P : Platform} (r : list Z) (e : nat) : State :=
  {| self := setup init "out" 60 5 (Some r) 95; files := ∅; epoch := e |}.

(** A drag from (100, 900) up and left to (50, 200). *)
Definition dragged : RegionSelector :=
  on_release (on_click (_create_fullscreen_window selector_init)
                {| event_x := 100; event_y := 900 |})
    {| event_x := 50; event_y := 200 |}.

End Samples.

Ltac unfold_py :=
  unfold try_except, bind, ret, raise, get, modify, lift in *.

(** * Properties *)

(** ** Region clamping *)

Section RegionFacts.

Context {P : Platform}.

Lemma validate_region_eq (x y width height : Z) :
  _validate_region [x; y; width; height] =
  let sw := fst screen_size in
  let sh := snd screen_size in
  let x' := Z.max 0 (Z.min x (sw - 1)) in
  let y' := Z.max 0 (Z.min y (sh - 1)) in
  Ok (x', y', Z.max 1 (Z.min width (sw - x')), Z.max 1 (Z.min height (sh - y'))).
Proof.
  unfold _validate_region, unpack4, MIN_REGION_SIZE.
  destruct screen_size as [sw sh]. reflexivity.
Qed.

(** C4: a rectangle already inside the screen is returned unchanged by
    [_validate_region], and validating the result again gives the same
    rectangle. *)
Theorem validate_region_idempotent (x y width height : Z) :
  0 <= x <= fst screen_size - 1 ->
  0 <= y <= snd screen_size - 1 ->
  1 <= width <= fst screen_size - x ->
  1 <= height <= snd screen_size - y ->
  _validate_region [x; y; width; height] = Ok (x, y, width, height) /\
  validate_twice [x; y; width; height] = _validate_region [x; y; width; height].
Proof.
  intros Hx Hy Hw Hh.
  assert (Hfix : _validate_region [x; y; width; height]
                 = Ok (x, y, width, height)).
  { rewrite validate_region_eq. cbv zeta.
    replace (Z.max 0 (Z.min x (fst screen_size - 1))) with x by lia.
    replace (Z.max 0 (Z.min y (snd screen_size - 1))) with y by lia.
    replace (Z.max 1 (Z.min width (fst screen_size - x))) with width by lia.
    replace (Z.max 1 (Z.min height (snd screen_size - y))) with height by lia.
    reflexivity. }
  split; [exact Hfix |].
  unfold validate_twice. rewrite Hfix. exact Hfix.
Qed.

(** C5: on a 1920 x 1080 screen the region (-5, -5, 100000, 100000) is
    clamped to (0, 0, 1920, 1080). *)
Theorem validate_region_scenario_D :
  screen_size = (1920, 1080) ->
  _validate_region [-5; -5; 100000; 100000] = Ok (0, 0, 1920, 1080).
Proof.
  intros Hscreen. rewrite validate_region_eq, Hscreen. reflexivity.
Qed.

(** C10: whatever rectangle is given, on a screen of at least 1 x 1 the
    rectangle [_validate_region] returns has its corner on the screen and a
    size between 1 x 1 and what is left of the screen from that corner. *)
Theorem validate_region_within_screen (x y width height : Z) :
  1 <= fst screen_size ->
  1 <= snd screen_size ->
  exists x' y' width' height',
    _validate_region [x; y; width; height] = Ok (x', y', width', height') /\
    0 <= x' <= fst screen_size - 1 /\
    0 <= y' <= snd screen_size - 1 /\
    1 <= width' <= fst screen_size - x' /\
    1 <= height' <= snd screen_size - y'.
Proof.
  intros Hsw Hsh. rewrite validate_region_eq. cbv zeta.
  do 4 eexists. split; [reflexivity |]. lia.
Qed.

End RegionFacts.

Lemma validate_region_idempotent_witness :
  @_validate_region Demo.still [100; 200; 640; 480] = Ok (100, 200, 640, 480) /\
  @validate_twice Demo.still [100; 200; 640; 480]
  = @_validate_region Demo.still [100; 200; 640; 480].
Proof.
  apply (@validate_region_idempotent Demo.still 100 200 640 480);
    simpl; lia.
Defined.

Lemma validate_region_scenario_D_witness :
  @_validate_region Demo.still [-5; -5; 100000; 100000]
  = Ok (0, 0, 1920, 1080).
Proof.
  apply (@validate_region_scenario_D Demo.still). reflexivity.
Defined.

Lemma validate_region_within_screen_witness :
  exists x' y' width' height',
    @_validate_region Demo.still [-40; 2000; 0; 7]
    = Ok (x', y', width', height') /\
    0 <= x' <= 1920 - 1 /\ 0 <= y' <= 1080 - 1 /\
    1 <= width' <= 1920 - x' /\ 1 <= height' <= 1080 - y'.
Proof.
  apply (@validate_region_within_screen Demo.still (-40) 2000 0 7);
    simpl; lia.
Defined.

(** ** The capture step *)

Section SessionFacts.

Context {P : Platform}.

(** The comparator reads the state and leaves it as it was. *)
Lemma calculate_similarity_try_state (p1 p2 : string) (s : State) :
  fst (calculate_similarity_try p1 p2 s) = s.
Proof.
  unfold calculate_similarity_try. unfold_py.
  repeat case_match; reflexivity.
Qed.

Lemma calculate_similarity_eq (p1 p2 : string) (s : State) :
  calculate_similarity p1 p2 s = (s, Ok (similarity_of s p1 p2)).
Proof.
  unfold similarity_of, calculate_similarity, try_except, ret.
  pose proof (calculate_similarity_try_state p1 p2 s) as Hst.
  destruct (calculate_similarity_try p1 p2 s) as [s' [score | msg]];
    simpl in *; subst s'; reflexivity.
Qed.

(** [calculate_similarity] never raises: for every pair of paths it
    returns a score and leaves the state alone; the score is 0 when either
    image does not decode and when anything inside its [try] block raises. *)
Lemma calculate_similarity_never_raises (p1 p2 : string) (s : State) :
  exists score : Q,
    calculate_similarity p1 p2 s = (s, Ok score) /\
    (cv2_imread (files s) p1 = None \/ cv2_imread (files s) p2 = None ->
     score = 0%Q) /\
    (forall s' msg,
       calculate_similarity_try p1 p2 s = (s', Raise msg) -> score = 0%Q).
Proof.
  exists (similarity_of s p1 p2).
  split; [apply calculate_similarity_eq |].
  unfold similarity_of, calculate_similarity, try_except, ret.
  split.
  - intros Hnone. unfold calculate_similarity_try. unfold_py.
    destruct Hnone as [H1 | H2].
    + rewrite H1. reflexivity.
    + rewrite H2. destruct (cv2_imread (files s) p1); reflexivity.
  - intros s' msg Hraise. rewrite Hraise. reflexivity.
Qed.

(** What the [try] block of [capture] leaves behind when it succeeds: the
    object untouched and one file written, at the path it returns. *)
Lemma capture_write_self (s s1 : State) (r : result (string * string)) :
  capture_write s = (s1, r) -> self s1 = self s.
Proof.
  unfold capture_write, _take_screenshot, tick, with_files. unfold_py.
  intros H. repeat (case_match; simplify_eq/=); reflexivity.
Qed.

Lemma capture_write_files (s s1 : State) (filename filepath : string) :
  capture_write s = (s1, Ok (filename, filepath)) ->
  exists data, files s1 = <[filepath := data]> (files s).
Proof.
  unfold capture_write, _take_screenshot, tick, with_files. unfold_py.
  intros H. repeat (case_match; simplify_eq/=); eexists; reflexivity.
Qed.

Lemma check_no_baseline (filename filepath : string) (s : State) :
  has_baseline s = false ->
  _check_and_handle_duplicate filename filepath s = kept s filename filepath.
Proof.
  intros Hb. unfold _check_and_handle_duplicate, kept. unfold_py.
  rewrite Hb. reflexivity.
Qed.

Lemma check_below (filename filepath last : string) (s : State) :
  last_screenshot_path (self s) = Some last ->
  Qle_bool (inject_Z (similarity_threshold (self s)))
    (similarity_of s last filepath) = false ->
  _check_and_handle_duplicate filename filepath s = kept s filename filepath.
Proof.
  intros Hlast Hlt. unfold _check_and_handle_duplicate, kept. unfold_py.
  destruct (has_baseline s); [| reflexivity].
  rewrite Hlast, calculate_similarity_eq, Hlt. reflexivity.
Qed.

Lemma check_duplicate (filename filepath last : string) (s : State) :
  has_baseline s = true ->
  last_screenshot_path (self s) = Some last ->
  Qle_bool (inject_Z (similarity_threshold (self s)))
    (similarity_of s last filepath) = true ->
  is_Some (files s !! filepath) ->
  _check_and_handle_duplicate filename filepath s
  = dropped s filepath (similarity_of s last filepath).
Proof.
  intros Hb Hlast Hge [data Hdata].
  unfold _check_and_handle_duplicate, dropped, os_remove. unfold_py.
  rewrite Hb, Hlast, calculate_similarity_eq, Hge, Hdata. reflexivity.
Qed.

Lemma has_baseline_exists (s : State) (last : string) :
  last_screenshot_path (self s) = Some last ->
  has_baseline s = os_path_exists (files s) last.
Proof.
  intros Hlast. unfold has_baseline, os_path_exists. rewrite Hlast.
  destruct (String.eqb last ""); reflexivity.
Qed.

Lemma os_path_exists_insert (fs : gmap string Raster) (p q : string)
    (data : Raster) :
  os_path_exists fs p = true ->
  os_path_exists (<[q := data]> fs) p = true.
Proof.
  unfold os_path_exists. intros H.
  apply andb_true_iff in H as [Hne Hin]. rewrite Hne. simpl.
  apply bool_decide_eq_true in Hin. apply bool_decide_eq_true.
  destruct (decide (q = p)) as [-> | Hqp].
  - rewrite lookup_insert_eq. eauto.
  - rewrite lookup_insert_ne; auto.
Qed.

Lemma capture_unfold (s s1 : State) (filename filepath : string) :
  capture_write s = (s1, Ok (filename, filepath)) ->
  capture s = _check_and_handle_duplicate filename filepath s1.
Proof. intros Hw. unfold capture, bind. rewrite Hw. reflexivity. Qed.

(** C1: when the session has a last kept image whose file exists and the
    similarity of that file to the capture just written reaches the
    threshold, [capture] deletes the new file, returns the duplicate shape
    with that similarity, and leaves [last_screenshot_path] as it was. *)
Theorem capture_duplicate
    (s s1 : State) (filename filepath last : string) :
  last_screenshot_path (self s) = Some last ->
  os_path_exists (files s) last = true ->
  capture_write s = (s1, Ok (filename, filepath)) ->
  (inject_Z (similarity_threshold (self s))
   <= similarity_of s1 last filepath)%Q ->
  exists s2,
    capture s = (s2, Ok (None, Some (similarity_of s1 last filepath))) /\
    files s2 !! filepath = None /\
    last_screenshot_path (self s2) = Some last /\
    self s2 = self s.
Proof.
  intros Hlast Hex Hw Hge.
  pose proof (capture_write_self _ _ _ Hw) as Hself.
  destruct (capture_write_files _ _ _ _ Hw) as [data Hfiles].
  rewrite <- Hself in Hlast, Hge.
  exists (with_files s1 (delete filepath (files s1))).
  rewrite (capture_unfold _ _ _ _ Hw).
  rewrite (check_duplicate filename filepath last s1); unfold dropped.
  - repeat split; simpl; [apply lookup_delete_eq | exact Hlast | ].
    rewrite Hself. reflexivity.
  - rewrite (has_baseline_exists _ _ Hlast), Hfiles.
    apply os_path_exists_insert. exact Hex.
  - exact Hlast.
  - apply Qle_bool_iff. exact Hge.
  - rewrite Hfiles, lookup_insert_eq. eauto.
Qed.



(** C8: a [capture] that returns gives either a file name and no
    similarity, or no file name and a similarity, and in the second case
    the similarity is at least the session's threshold. *)
Theorem capture_result_shape
    (s s2 : State) (r : option string * option Q) :
  capture s = (s2, Ok r) ->
  (exists filename, r = (Some filename, None)) \/
  (exists similarity,
     r = (None, Some similarity) /\
     (inject_Z (similarity_threshold (self s)) <= similarity)%Q /\
     similarity_threshold (self s2) = similarity_threshold (self s)).
Proof.
  unfold capture. unfold bind at 1.
  destruct (capture_write s) as [s1 [[filename filepath] | msg]] eqn:Hw;
    [| discriminate].
  pose proof (capture_write_self _ _ _ Hw) as Hself.
  unfold _check_and_handle_duplicate, os_remove, with_files, with_self.
  unfold_py. intros H.
  destruct (has_baseline s1); [| simplify_eq/=; eauto].
  destruct (last_screenshot_path (self s1)) as [last |];
    [| simplify_eq/=; eauto].
  rewrite calculate_similarity_eq in H.
  destruct (Qle_bool _ _) eqn:Hge; [| simplify_eq/=; eauto].
  apply Qle_bool_iff in Hge.
  destruct (files s1 !! filepath); simplify_eq/=.
  right. eexists. rewrite <- Hself. eauto.
Qed.

(** C9: [setup] stores its five arguments and clears
    [last_screenshot_path], whatever the object held before; so the first
    capture after it has no baseline and, once written, is kept. *)
Theorem setup_resets_baseline (c : ScreenshotCapture) (dir : string)
    (d i : Z) (rgn : option (list Z)) (t : Z) :
  let c' := setup c dir d i rgn t in
  last_screenshot_path c' = None /\
  save_path c' = Some dir /\
  duration c' = d /\
  interval c' = i /\
  region c' = rgn /\
  similarity_threshold c' = t /\
  forall (fs : gmap string Raster) (e : nat),
    let s := {| self := c'; files := fs; epoch := e |} in
    has_baseline s = false /\
    forall s1 filename filepath,
      capture_write s = (s1, Ok (filename, filepath)) ->
      capture s = kept s1 filename filepath.
Proof.
  cbv zeta. repeat split.
  intros s1 filename filepath Hw.
  pose proof (capture_write_self _ _ _ Hw) as Hself. simpl in Hself.
  rewrite (capture_unfold _ _ _ _ Hw).
  apply check_no_baseline. unfold has_baseline. rewrite Hself. reflexivity.
Qed.

End SessionFacts.

(** ** The capture loop *)

Lemma tally_app (p : Event -> bool) (a b : list Event) :
  tally p (a ++ b) = tally p a + tally p b.
Proof.
  unfold tally. rewrite List.filter_app, List.length_app. lia.
Qed.

(** The core does not clamp: past the configured duration the percentage
    is above 100. *)
Lemma progress_exceeds (d : Z) (elapsed : Q) :
  0 < d -> (inject_Z d < elapsed)%Q ->
  (100 < elapsed / inject_Z d * 100)%Q.
Proof.
  intros Hd Hlt.
  assert (Hpos : (0 < inject_Z d)%Q).
  { change 0%Q with (inject_Z 0). rewrite <- Zlt_Qlt. exact Hd. }
  assert (Hone : (1 < elapsed / inject_Z d)%Q).
  { apply Qlt_shift_div_l; [exact Hpos |]. rewrite Qmult_1_l. exact Hlt. }
  apply Qle_lt_trans with (y := (1 * 100)%Q).
  - rewrite Qmult_1_l. apply Qle_refl.
  - apply Qmult_lt_compat_r; [reflexivity | exact Hone].
Qed.

Section ControllerFacts.

Context {P : Platform}.

Lemma capture_config (s s' : State)
    (r : result (option string * option Q)) :
  capture s = (s', r) ->
  duration (self s') = duration (self s) /\
  interval (self s') = interval (self s) /\
  similarity_threshold (self s') = similarity_threshold (self s).
Proof.
  unfold capture. unfold bind at 1.
  destruct (capture_write s) as [s1 [[filename filepath] | msg]] eqn:Hw;
    pose proof (capture_write_self _ _ _ Hw) as Hself.
  - unfold _check_and_handle_duplicate, os_remove, with_files, with_self.
    unfold_py. intros H. rewrite <- Hself.
    destruct (has_baseline s1); [| simplify_eq/=; auto].
    destruct (last_screenshot_path (self s1)); [| simplify_eq/=; auto].
    rewrite calculate_similarity_eq in H.
    repeat (case_match; simplify_eq/=); auto.
  - intros H. simplify_eq. rewrite Hself. auto.
Qed.

(** One pass through the body, case by case. *)
Lemma iteration_raise (t0 : Q) (w : Worker) (s1 : State) (msg : string) :
  capture (session w) = (s1, Raise msg) ->
  iteration t0 w =
  ({| session := s1; count := count w;
      duplicate_count := duplicate_count w;
      queue := queue w ++ [show_error msg] |}, Ok Break).
Proof.
  intros Hc. unfold iteration, in_session, root_after. unfold_py.
  rewrite Hc. reflexivity.
Qed.

Lemma iteration_ok (t0 : Q) (w : Worker) (s1 : State)
    (r : option string * option Q) :
  capture (session w) = (s1, Ok r) ->
  duration (self s1) <> 0 ->
  exists w' flow rest,
    iteration t0 w = (w', Ok flow) /\
    queue w' = (queue w
                ++ reported w t0 (time_at (epoch s1)) (duration (self s1)) r
                ++ rest)%list /\
    (rest = [] \/ exists msg, rest = [show_error msg] /\ flow = Break) /\
    count w' = count w + (if fst r is Some _ then 1 else 0) /\
    duplicate_count w' = duplicate_count w + (if fst r is Some _ then 0 else 1) /\
    self (session w') = self s1.
Proof.
  intros Hc Hd.
  unfold iteration, in_session, root_after, incr_count, incr_duplicate_count,
    time_time, time_sleep, tick, float_div, _process_capture_result, reported.
  unfold_py. rewrite Hc. apply Z.eqb_neq in Hd.
  destruct r as [[filename |] similarity];
    cbv beta iota zeta; cbn [session self epoch]; rewrite Hd; simpl;
    destruct (Qle_bool _ _); simpl;
    try destruct (interval (self s1) <? 0)%Z; simpl;
    do 3 eexists; (split; [reflexivity |]); simpl;
    rewrite <- ?app_assoc; simpl;
    (split; [reflexivity |]);
    (split; [eauto |]); repeat split; lia.
Qed.

Lemma iteration_zero_duration (t0 : Q) (w : Worker) (s1 : State)
    (r : option string * option Q) :
  capture (session w) = (s1, Ok r) ->
  duration (self s1) = 0 ->
  exists w',
    iteration t0 w = (w', Ok Break) /\
    queue w' = (queue w ++ [show_error "float division by zero"])%list /\
    count w' = count w /\
    duplicate_count w' = duplicate_count w /\
    self (session w') = self s1.
Proof.
  intros Hc Hd.
  unfold iteration, in_session, root_after, time_time, tick, float_div,
    _process_capture_result.
  unfold_py. rewrite Hc. destruct r as [filename similarity].
  cbv beta iota zeta. cbn [session self epoch]. rewrite Hd. simpl.
  eexists. split; [reflexivity |]. simpl. auto.
Qed.

Lemma reported_status (w : Worker) (t0 : Q) (n : nat) (d : Z)
    (r : option string * option Q) :
  d <> 0 ->
  Forall (status_of_clock t0 d) (reported w t0 (time_at n) d r).
Proof.
  intros Hd. unfold reported.
  destruct r as [[filename |] similarity]; repeat constructor; simpl;
    exists n; cbv zeta; repeat split; auto; apply progress_exceeds.
Qed.

Lemma reported_tally (w : Worker) (t0 now : Q) (d : Z)
    (r : option string * option Q) :
  tally is_kept (reported w t0 now d r) = (if fst r is Some _ then 1 else 0) /\
  tally is_duplicate (reported w t0 now d r)
  = (if fst r is Some _ then 0 else 1) /\
  tally is_summary (reported w t0 now d r) = 0.
Proof. destruct r as [[filename |] similarity]; repeat split. Qed.

(** The body of the loop always ends in its own [except] at worst: it
    never raises, and it keeps the invariant. *)
Lemma iteration_invariant (t0 : Q) (d : Z) (w w' : Worker)
    (r : result Flow) :
  loop_invariant t0 d w ->
  iteration t0 w = (w', r) ->
  loop_invariant t0 d w' /\ exists flow, r = Ok flow.
Proof.
  intros (Hd & Hst & Hk & Hdup & Hsum) Hit.
  destruct (capture (session w)) as [s1 [res | msg]] eqn:Hc;
    destruct (capture_config _ _ _ Hc) as (Hdur & _ & _).
  - destruct (Z.eq_dec (duration (self s1)) 0) as [Hz | Hnz].
    + destruct (iteration_zero_duration t0 w s1 res Hc Hz)
        as (w1 & Hit1 & Hq & Hk1 & Hdup1 & Hself).
      rewrite Hit1 in Hit. simplify_eq. split; [| eauto].
      unfold loop_invariant, counts_agree.
      rewrite Hq, Hself, Hk1, Hdup1, !tally_app, Forall_app.
      repeat split; auto; try (unfold tally in *; simpl; lia).
      repeat constructor.
    + destruct (iteration_ok t0 w s1 res Hc Hnz)
        as (w1 & flow & rest & Hit1 & Hq & Hrest & Hk1 & Hdup1 & Hself).
      rewrite Hit1 in Hit. simplify_eq. split; [| eauto].
      destruct (reported_tally w t0 (time_at (epoch s1))
                  (duration (self s1)) res) as (Tk & Td & Ts).
      assert (Hrest' : Forall (status_of_clock t0 (duration (self (session w)))) rest
                       /\ tally is_kept rest = 0
                       /\ tally is_duplicate rest = 0
                       /\ tally is_summary rest = 0).
      { destruct Hrest as [-> | (msg & -> & _)];
          repeat split; repeat constructor. }
      destruct Hrest' as (Fr & Rk & Rd & Rs).
      unfold loop_invariant, counts_agree.
      rewrite Hq, Hself, Hk1, Hdup1, !tally_app, !Forall_app, Tk, Td, Ts,
        Rk, Rd, Rs.
      repeat split; auto; try lia.
      rewrite <- Hdur. apply reported_status. exact Hnz.
  - rewrite (iteration_raise t0 w s1 msg Hc) in Hit. simplify_eq.
    split; [| eauto].
    unfold loop_invariant, counts_agree. simpl.
    rewrite !tally_app, Forall_app.
    repeat split; auto; try (unfold tally in *; simpl; lia).
    repeat constructor.
Qed.

Lemma worker_loop_invariant (t0 : Q) (d : Z) (fuel : nat) :
  forall (w w' : Worker) (r : result unit),
    loop_invariant t0 d w ->
    worker_loop fuel t0 w = Some (w', r) ->
    loop_invariant t0 d w' /\ r = Ok tt.
Proof.
  induction fuel as [| fuel IH]; intros w w' r Hinv Hloop; [discriminate |].
  simpl in Hloop.
  destruct (capturing_at (epoch (session w))); [| simplify_eq; auto].
  destruct (iteration t0 w) as [w1 r1] eqn:Hit.
  destruct (iteration_invariant t0 d w w1 r1 Hinv Hit) as (Hinv1 & flow & ->).
  destruct flow; [eauto | simplify_eq; auto].
Qed.

Lemma passes_invariant (t0 : Q) (d : Z) (k : nat) :
  forall w w' : Worker,
    loop_invariant t0 d w ->
    passes k t0 w = Some w' ->
    loop_invariant t0 d w'.
Proof.
  induction k as [| k IH]; intros w w' Hinv Hp; simpl in Hp;
    [simplify_eq; exact Hinv |].
  destruct (capturing_at (epoch (session w))); [| discriminate].
  destruct (iteration t0 w) as [w1 r1] eqn:Hit.
  destruct (iteration_invariant t0 d w w1 r1 Hinv Hit) as (Hinv1 & flow & ->).
  destruct flow; [eauto | discriminate].
Qed.

Lemma worker_loop_passes (t0 : Q) (k n : nat) :
  forall w w' : Worker,
    passes k t0 w = Some w' ->
    worker_loop (k + n) t0 w = worker_loop n t0 w'.
Proof.
  induction k as [| k IH]; intros w w' Hp; simpl in *;
    [simplify_eq; reflexivity |].
  destruct (capturing_at (epoch (session w))); [| discriminate].
  destruct (iteration t0 w) as [w1 [[] | msg]]; try discriminate.
  apply IH. exact Hp.
Qed.

Lemma enter_invariant (t0 : Q) (s : State) :
  loop_invariant t0 (duration (self s)) (enter s).
Proof. repeat split. constructor. Qed.

(** C6: every status callback of a run carries the percentage
    elapsed / duration * 100 of a reading of the clock since the start of
    the run, unclamped (above 100 once the elapsed time is past a positive
    duration); and every capture that returns, kept or duplicate, is
    followed by such a callback computed from the clock read after it. *)
Theorem progress_from_clock_unclamped
    (fuel : nat) (s : State) (w : Worker) (r : result unit) :
  _capture_worker fuel s = Some (w, r) ->
  Forall (status_of_clock (time_at (epoch s)) (duration (self s))) (queue w) /\
  forall (t0 : Q) (w0 : Worker) (s1 : State) (res : option string * option Q),
    capture (session w0) = (s1, Ok res) ->
    duration (self s1) <> 0 ->
    exists w1 flow rest,
      iteration t0 w0 = (w1, Ok flow) /\
      queue w1 = (queue w0
                  ++ reported w0 t0 (time_at (epoch s1)) (duration (self s1)) res
                  ++ rest)%list /\
      Forall (status_of_clock t0 (duration (self s1)))
        (reported w0 t0 (time_at (epoch s1)) (duration (self s1)) res).
Proof.
  intros Hrun. split.
  - unfold _capture_worker, time_time, tick in Hrun. unfold_py.
    simpl in Hrun.
    set (s0 := {| self := self s; files := files s; epoch := S (epoch s) |})
      in Hrun.
    destruct (worker_loop fuel (time_at (epoch s)) (enter s0))
      as [[w1 r1] |] eqn:Hloop; [| discriminate].
    destruct (worker_loop_invariant _ _ _ _ _ _
                (enter_invariant (time_at (epoch s)) s0) Hloop)
      as ((_ & Hst & _) & ->).
    unfold root_after, modify in Hrun. simplify_eq. simpl.
    rewrite Forall_app. split; [exact Hst | repeat constructor].
  - intros t0 w0 s1 res Hc Hnz.
    destruct (iteration_ok t0 w0 s1 res Hc Hnz)
      as (w1 & flow & rest & Hit & Hq & _).
    exists w1, flow, rest. repeat split; auto.
    apply reported_status. exact Hnz.
Qed.

(** C7: when a capture raises in a running loop, the worker schedules the
    error with the exception's text, leaves the loop without observing the
    environment again, and schedules the one summary of the run, with the
    counts of the captures reported before the failure. *)
Theorem capture_failure_ends_run
    (k n : nat) (s s0 s1 : State) (t0 : Q) (w : Worker) (msg : string) :
  time_time s = (s0, Ok t0) ->
  passes k t0 (enter s0) = Some w ->
  capturing_at (epoch (session w)) = true ->
  capture (session w) = (s1, Raise msg) ->
  exists final,
    _capture_worker (k + S n) s = Some (final, Ok tt) /\
    queue final
    = (queue w
       ++ [show_error msg;
           capture_complete (count w) (duplicate_count w)])%list /\
    session final = s1 /\
    count w = tally is_kept (queue w) /\
    duplicate_count w = tally is_duplicate (queue w) /\
    tally is_summary (queue final) = 1.
Proof.
  intros Ht Hp Hflag Hc.
  pose proof (passes_invariant t0 _ k _ _ (enter_invariant t0 s0) Hp)
    as (_ & _ & Hk & Hdup & Hsum).
  eexists. split.
  - unfold _capture_worker. rewrite Ht.
    rewrite (worker_loop_passes t0 k (S n) _ _ Hp). simpl.
    rewrite Hflag, (iteration_raise t0 w s1 msg Hc).
    unfold root_after, modify. simpl. reflexivity.
  - simpl. rewrite <- app_assoc. simpl.
    repeat split; auto.
    rewrite tally_app, Hsum. reflexivity.
Qed.

End ControllerFacts.

(** ** The theorems at work on the concrete platforms *)

Lemma capture_duplicate_witness :
  exists s2 : @State Demo.still,
    capture Demo.still_second
    = (s2, Ok (None,
               Some (similarity_of (fst (capture_write Demo.still_second))
                       "out/screenshot_0.png" "out/screenshot_3.png"))) /\
    files s2 !! "out/screenshot_3.png" = None /\
    last_screenshot_path (self s2) = Some "out/screenshot_0.png" /\
    self s2 = self Demo.still_second.
Proof.
  apply (capture_duplicate Demo.still_second (fst (capture_write Demo.still_second))
           "screenshot_3.png" "out/screenshot_3.png" "out/screenshot_0.png").
  - vm_compute. reflexivity.
  - vm_compute. reflexivity.
  - vm_compute. reflexivity.
  - vm_compute. discriminate.
Defined.


Lemma capture_result_shape_witness :
  (exists filename, (@None string, Some 100%Q) = (Some filename, None)) \/
  (exists similarity,
     (@None string, Some 100%Q) = (None, Some similarity) /\
     (inject_Z (similarity_threshold (self Demo.still_second)) <= similarity)%Q /\
     similarity_threshold (self (fst (capture Demo.still_second)))
     = similarity_threshold (self Demo.still_second)).
Proof.
  apply (capture_result_shape Demo.still_second (fst (capture Demo.still_second))
           (None, Some 100%Q)).
  vm_compute. reflexivity.
Defined.

Lemma progress_from_clock_unclamped_witness :
  exists (w : @Worker Demo.still) (r : result unit),
    _capture_worker 10 Demo.still_start = Some (w, r) /\
    In (update_time_info 14 (-4) (14 / 10 * 100)%Q) (queue w) /\
    Forall (@status_of_clock Demo.still 0%Q 10) (queue w).
Proof.
  destruct (_capture_worker 10 Demo.still_start) as [[w r] |] eqn:Hrun.
  - exists w, r. split; [reflexivity |].
    split.
    + revert Hrun. vm_compute. intros Hrun.
      injection Hrun as <- _. do 4 right. left. reflexivity.
    + exact (proj1 (progress_from_clock_unclamped 10 Demo.still_start w r Hrun)).
  - exfalso. revert Hrun. vm_compute. discriminate.
Defined.

Lemma capture_failure_ends_run_witness :
  exists final : @Worker Demo.failing,
    _capture_worker 3 Demo.failing_start = Some (final, Ok tt) /\
    queue final
    = [update_progress 1 4 56 (4 / 60 * 100)%Q "screenshot_1.png";
       show_error "スクリーンショット取得に失敗しました: screen grab failed";
       capture_complete 1 0] /\
    epoch (session final) = 8%nat.
Proof.
  pose (s0 := fst (time_time Demo.failing_start)).
  pose (w := default (enter s0) (passes 1 0%Q (enter s0))).
  destruct (capture_failure_ends_run 1 1 Demo.failing_start s0
              (fst (capture (session w))) 0%Q w
              "スクリーンショット取得に失敗しました: screen grab failed")
    as (final & Hrun & Hq & Hs & _).
  - vm_compute. reflexivity.
  - vm_compute. reflexivity.
  - vm_compute. reflexivity.
  - vm_compute. reflexivity.
  - exists final. split; [exact Hrun |].
    split; [rewrite Hq | rewrite Hs]; vm_compute; reflexivity.
Defined.

(** An unchanging screen for ten seconds: one capture kept, the next two
    discarded as duplicates, the last one reported past 100%. *)
Example still_run_events :
  option_map (fun x => queue (fst x)) (_capture_worker 10 Demo.still_start)
  = Some [update_progress 1 4 6 (4 / 10 * 100)%Q "screenshot_1.png";
          update_duplicate_status (Some (1 * 100)%Q);
          update_time_info 9 1 (9 / 10 * 100)%Q;
          update_duplicate_status (Some (1 * 100)%Q);
          update_time_info 14 (-4) (14 / 10 * 100)%Q;
          capture_complete 1 2].
Proof. vm_compute. reflexivity. Qed.

(** Two passes are not enough for that run to leave the loop. *)
Example still_run_needs_three_passes :
  _capture_worker 2 Demo.still_start = None.
Proof. vm_compute. reflexivity. Qed.

(** * Further properties of the code *)

(** ** The region selector *)

Section SelectorFacts.

Context {P : Platform}.

Lemma adjust_region_eq (x y width height : Z) :
  _adjust_region_to_screen x y width height =
  let sw := fst screen_size in
  let sh := snd screen_size in
  let x' := Z.max 0 (Z.min x (sw - width)) in
  let y' := Z.max 0 (Z.min y (sh - height)) in
  [x'; y';
   if (sw <? x' + width)%Z then sw - x' else width;
   if (sh <? y' + height)%Z then sh - y' else height].
Proof.
  unfold _adjust_region_to_screen. destruct screen_size as [sw sh].
  reflexivity.
Qed.

(** What [_adjust_region_to_screen] returns for a size of at least 1 x 1. *)
Lemma adjust_region_on_screen (x y width height : Z) :
  1 <= fst screen_size -> 1 <= snd screen_size ->
  1 <= width -> 1 <= height ->
  exists x' y' width' height',
    _adjust_region_to_screen x y width height = [x'; y'; width'; height'] /\
    0 <= x' /\ x' + width' <= fst screen_size /\
    width' = Z.min width (fst screen_size) /\
    0 <= y' /\ y' + height' <= snd screen_size /\
    height' = Z.min height (snd screen_size).
Proof.
  intros Hsw Hsh Hw Hh. rewrite adjust_region_eq. cbv zeta.
  do 4 eexists. split; [reflexivity |].
  repeat case_match; rewrite ?Z.ltb_lt, ?Z.ltb_ge in *; lia.
Qed.

Lemma selected_region_cases (sel : RegionSelector) (r : list Z) :
  _calculate_selected_region sel = Some r ->
  exists sx sy ex ey,
    start_x sel = Some sx /\ start_y sel = Some sy /\
    end_x sel = Some ex /\ end_y sel = Some ey /\
    r = _adjust_region_to_screen (Z.min sx ex) (Z.min sy ey)
          (Z.max 1 (Z.abs (ex - sx))) (Z.max 1 (Z.abs (ey - sy))).
Proof.
  unfold _calculate_selected_region, MIN_REGION_SIZE.
  destruct (negb (selection_complete sel)); [discriminate |].
  destruct (start_x sel) as [sx |], (start_y sel) as [sy |],
    (end_x sel) as [ex |], (end_y sel) as [ey |]; try discriminate.
  intros H. simplify_eq. eauto 10.
Qed.

(** X1: on a screen of at least 1 x 1, a region the selector returns has
    four entries, lies on the screen and is at least 1 x 1. *)
Theorem selected_region_on_screen (sel : RegionSelector) (r : list Z) :
  1 <= fst screen_size -> 1 <= snd screen_size ->
  _calculate_selected_region sel = Some r ->
  exists x y width height,
    r = [x; y; width; height] /\
    0 <= x /\ 1 <= width /\ x + width <= fst screen_size /\
    0 <= y /\ 1 <= height /\ y + height <= snd screen_size.
Proof.
  intros Hsw Hsh Hsel.
  destruct (selected_region_cases _ _ Hsel)
    as (sx & sy & ex & ey & _ & _ & _ & _ & ->).
  destruct (adjust_region_on_screen (Z.min sx ex) (Z.min sy ey)
              (Z.max 1 (Z.abs (ex - sx))) (Z.max 1 (Z.abs (ey - sy))))
    as (x & y & w & h & -> & Hx & Hxw & Hw & Hy & Hyh & Hh); try lia.
  exists x, y, w, h. split; [reflexivity |]. lia.
Qed.

(** X2: a region the selector returns goes through [_validate_region]
    unchanged: what the user selected is what is captured. *)
Theorem selected_region_passes_validation
    (sel : RegionSelector) (r : list Z) :
  1 <= fst screen_size -> 1 <= snd screen_size ->
  _calculate_selected_region sel = Some r ->
  exists x y width height,
    r = [x; y; width; height] /\
    _validate_region r = Ok (x, y, width, height).
Proof.
  intros Hsw Hsh Hsel.
  destruct (selected_region_cases _ _ Hsel)
    as (sx & sy & ex & ey & _ & _ & _ & _ & ->).
  destruct (adjust_region_on_screen (Z.min sx ex) (Z.min sy ey)
              (Z.max 1 (Z.abs (ex - sx))) (Z.max 1 (Z.abs (ey - sy))))
    as (x & y & w & h & -> & Hx & Hxw & Hw & Hy & Hyh & Hh); try lia.
  exists x, y, w, h. split; [reflexivity |].
  rewrite validate_region_eq. cbv zeta.
  replace (Z.max 0 (Z.min x (fst screen_size - 1))) with x by lia.
  replace (Z.max 0 (Z.min y (snd screen_size - 1))) with y by lia.
  replace (Z.max 1 (Z.min w (fst screen_size - x))) with w by lia.
  replace (Z.max 1 (Z.min h (snd screen_size - y))) with h by lia.
  reflexivity.
Qed.

(** X3: [_adjust_region_to_screen] moves a rectangle that fits the screen
    onto it without resizing it, and leaves it alone when it is already
    there. *)
Theorem adjust_region_keeps_size (x y width height : Z) :
  1 <= width <= fst screen_size ->
  1 <= height <= snd screen_size ->
  exists x' y',
    _adjust_region_to_screen x y width height = [x'; y'; width; height] /\
    0 <= x' /\ x' + width <= fst screen_size /\
    0 <= y' /\ y' + height <= snd screen_size /\
    (0 <= x /\ x + width <= fst screen_size -> x' = x) /\
    (0 <= y /\ y + height <= snd screen_size -> y' = y).
Proof.
  intros Hw Hh. rewrite adjust_region_eq. cbv zeta.
  set (x' := Z.max 0 (Z.min x (fst screen_size - width))).
  set (y' := Z.max 0 (Z.min y (snd screen_size - height))).
  exists x', y'.
  assert (Hx : (fst screen_size <? x' + width)%Z = false)
    by (apply Z.ltb_ge; lia).
  assert (Hy : (snd screen_size <? y' + height)%Z = false)
    by (apply Z.ltb_ge; lia).
  rewrite Hx, Hy. split; [reflexivity |]. lia.
Qed.

(** X4: the direction of the drag does not matter: exchanging the point of
    the click and the point of the release gives the same region. *)
Theorem selection_direction_irrelevant
    (sel : RegionSelector) (a b : MouseEvent) :
  _calculate_selected_region (on_release (on_click sel a) b)
  = _calculate_selected_region (on_release (on_click sel b) a).
Proof.
  unfold _calculate_selected_region, selection_complete. simpl.
  rewrite (Z.min_comm (event_x a)), (Z.min_comm (event_y a)).
  replace (event_x b - event_x a) with (- (event_x a - event_x b)) by lia.
  replace (event_y b - event_y a) with (- (event_y a - event_y b)) by lia.
  rewrite !Z.abs_opp. reflexivity.
Qed.

(** X5: while the overlay is up, [confirm_selection] closes it exactly when
    a region will be returned, and that region is the one selected;
    otherwise it warns and changes nothing. *)
Theorem confirm_selection_closes_iff_region (sel : RegionSelector) :
  window sel = WindowUp ->
  (exists r sel',
     _calculate_selected_region sel = Some r /\
     confirm_selection sel = (sel', Ok None) /\
     window sel' = WindowDestroyed /\
     _calculate_selected_region sel' = Some r)
  \/
  (_calculate_selected_region sel = None /\
   confirm_selection sel = (sel, Ok (Some "範囲を選択してください"))).
Proof.
  intros Hup.
  unfold confirm_selection, root_destroy, _calculate_selected_region.
  unfold_py.
  destruct (selection_complete sel) eqn:Hc; [left | right; auto].
  rewrite Hup.
  unfold selection_complete in *. simpl in *.
  destruct (start_x sel), (start_y sel), (end_x sel), (end_y sel);
    try discriminate.
  do 2 eexists. repeat split; reflexivity.
Qed.

(** X6: a click released where it was pressed selects one pixel: the
    point, brought onto the screen, with size 1 x 1. *)
Theorem click_without_drag_selects_one_pixel
    (sel : RegionSelector) (e : MouseEvent) :
  1 <= fst screen_size -> 1 <= snd screen_size ->
  _calculate_selected_region (on_release (on_click sel e) e)
  = Some [Z.max 0 (Z.min (event_x e) (fst screen_size - 1));
          Z.max 0 (Z.min (event_y e) (snd screen_size - 1)); 1; 1].
Proof.
  intros Hsw Hsh.
  unfold _calculate_selected_region, selection_complete, MIN_REGION_SIZE.
  simpl. rewrite !Z.sub_diag, !Z.min_id. simpl.
  change (Z.max 1 (Z.abs 0)) with 1.
  rewrite adjust_region_eq. cbv zeta.
  assert (Hx : (fst screen_size
                <? Z.max 0 (Z.min (event_x e) (fst screen_size - 1)) + 1)%Z
               = false) by (apply Z.ltb_ge; lia).
  assert (Hy : (snd screen_size
                <? Z.max 0 (Z.min (event_y e) (snd screen_size - 1)) + 1)%Z
               = false) by (apply Z.ltb_ge; lia).
  rewrite Hx, Hy. reflexivity.
Qed.

End SelectorFacts.

(** ** Taking and storing a capture *)

Section CaptureFacts.

Context {P : Platform}.

(** X7: a four-element region is clamped before the screen is grabbed: on
    a screen of at least 1 x 1, the rectangle [_take_screenshot] passes to
    [pyautogui.screenshot] lies on the screen, whatever was configured. *)
Theorem take_screenshot_region_on_screen
    (s : State) (x y width height : Z) :
  1 <= fst screen_size -> 1 <= snd screen_size ->
  region (self s) = Some [x; y; width; height] ->
  exists x' y' width' height',
    _take_screenshot s
    = ({| self := self s; files := files s; epoch := S (epoch s) |},
       screenshot_at (epoch s) (Some (x', y', width', height'))) /\
    0 <= x' /\ 1 <= width' /\ x' + width' <= fst screen_size /\
    0 <= y' /\ 1 <= height' /\ y' + height' <= snd screen_size.
Proof.
  intros Hsw Hsh Hr.
  unfold _take_screenshot, tick. unfold_py. rewrite Hr.
  rewrite validate_region_eq. cbv zeta.
  do 4 eexists. split; [reflexivity |]. lia.
Qed.

(** What the [try] block of [capture] does, in both outcomes. *)
Lemma capture_write_cases (s s1 : State) (r : result (string * string)) :
  capture_write s = (s1, r) ->
  self s1 = self s /\
  match r with
  | Ok (filename, filepath) =>
      exists dir data,
        save_path (self s) = Some dir /\
        filename = next_filename s /\
        filepath = os_path_join dir filename /\
        files s1 = <[filepath := data]> (files s)
  | Raise msg =>
      files s1 = files s /\
      exists e, msg = "スクリーンショット取得に失敗しました: " ++ e
  end.
Proof.
  unfold capture_write, _take_screenshot, tick, with_files, next_filename.
  unfold_py. intros H.
  repeat (case_match; simplify_eq/=); eauto 10.
Qed.

(** The check that follows a successful write never raises: the file it
    may delete is the one just written. *)
Lemma check_after_write (s1 : State) (filename filepath : string)
    (data : Raster) (fs : gmap string Raster) :
  files s1 = <[filepath := data]> fs ->
  _check_and_handle_duplicate filename filepath s1
  = kept s1 filename filepath
  \/ exists last,
       last_screenshot_path (self s1) = Some last /\
       has_baseline s1 = true /\
       Qle_bool (inject_Z (similarity_threshold (self s1)))
         (similarity_of s1 last filepath) = true /\
       _check_and_handle_duplicate filename filepath s1
       = dropped s1 filepath (similarity_of s1 last filepath).
Proof.
  intros Hfiles.
  destruct (has_baseline s1) eqn:Hb;
    [| left; apply check_no_baseline; exact Hb].
  destruct (last_screenshot_path (self s1)) as [last |] eqn:Hlast;
    [| unfold has_baseline in Hb; rewrite Hlast in Hb; discriminate].
  destruct (Qle_bool (inject_Z (similarity_threshold (self s1)))
              (similarity_of s1 last filepath)) eqn:Hge.
  - right. exists last. repeat split; auto.
    apply check_duplicate; auto.
    rewrite Hfiles, lookup_insert_eq. eauto.
  - left. apply (check_below filename filepath last); auto.
Qed.


(** X9: [capture] touches no file but the one it names after the current
    timestamp: every other path is as it was, whether the capture is kept,
    discarded or fails. *)
Theorem capture_touches_one_file
    (s s' : State) (r : result (option string * option Q))
    (dir p : string) :
  save_path (self s) = Some dir ->
  capture s = (s', r) ->
  p <> os_path_join dir (next_filename s) ->
  files s' !! p = files s !! p.
Proof.
  intros Hdir. unfold capture. unfold bind at 1.
  destruct (capture_write s) as [s1 [[filename filepath] | e]] eqn:Hw;
    destruct (capture_write_cases _ _ _ Hw) as [Hself Hcase].
  - destruct Hcase as (dir' & data & Hdir' & Hfn & Hfp & Hfiles).
    rewrite Hdir in Hdir'.
    destruct (check_after_write s1 filename filepath data (files s) Hfiles)
      as [-> | (last & _ & _ & _ & ->)]; unfold kept, dropped;
      intros H Hp; simplify_eq; simpl; rewrite Hfiles.
    + rewrite lookup_insert_ne; auto.
    + rewrite lookup_delete_ne, lookup_insert_ne; auto.
  - intros H _. simplify_eq. destruct Hcase as [-> _]. reflexivity.
Qed.

(** X10: a capture discarded as a duplicate leaves no trace: the disk is
    what it was before, without the path the capture was written to; so
    it is exactly what it was when that path was free. *)
Theorem capture_duplicate_restores_disk
    (s s' : State) (similarity : option Q) :
  capture s = (s', Ok (None, similarity)) ->
  exists dir,
    save_path (self s) = Some dir /\
    files s' = delete (os_path_join dir (next_filename s)) (files s) /\
    (files s !! os_path_join dir (next_filename s) = None ->
     files s' = files s) /\
    self s' = self s.
Proof.
  unfold capture. unfold bind at 1.
  destruct (capture_write s) as [s1 [[filename filepath] | e]] eqn:Hw;
    destruct (capture_write_cases _ _ _ Hw) as [Hself Hcase];
    [| discriminate].
  destruct Hcase as (dir & data & Hdir & Hfn & Hfp & Hfiles).
  destruct (check_after_write s1 filename filepath data (files s) Hfiles)
    as [-> | (last & _ & _ & _ & ->)]; unfold kept, dropped;
    intros H; simplify_eq.
  exists dir. simpl. rewrite Hfiles, delete_insert_eq.
  repeat split; auto. intros Hfree. apply delete_id. exact Hfree.
Qed.

(** X11: a kept capture is on disk under the name returned, in the
    configured folder, and it is the new baseline. *)
Theorem capture_kept_on_disk
    (s s' : State) (filename : string) (similarity : option Q) :
  capture s = (s', Ok (Some filename, similarity)) ->
  exists dir data,
    save_path (self s) = Some dir /\
    filename = next_filename s /\
    similarity = None /\
    files s' = <[os_path_join dir filename := data]> (files s) /\
    files s' !! os_path_join dir filename = Some data /\
    last_screenshot_path (self s') = Some (os_path_join dir filename).
Proof.
  unfold capture. unfold bind at 1.
  destruct (capture_write s) as [s1 [[fn filepath] | e]] eqn:Hw;
    destruct (capture_write_cases _ _ _ Hw) as [Hself Hcase];
    [| discriminate].
  destruct Hcase as (dir & data & Hdir & Hfn & Hfp & Hfiles).
  destruct (check_after_write s1 fn filepath data (files s) Hfiles)
    as [-> | (last & _ & _ & _ & ->)]; unfold kept, dropped;
    intros H; simplify_eq.
  exists dir, data. simpl. rewrite Hfiles, lookup_insert_eq. auto 10.
Qed.


End CaptureFacts.

(** ** The comparators and the threshold *)

Section ComparatorFacts.

Context {P : Platform}.

(** The score depends on the files only, not on the object. *)
Lemma similarity_of_with_self (s : State) (c : ScreenshotCapture)
    (p1 p2 : string) :
  similarity_of (with_self s c) p1 p2 = similarity_of s p1 p2.
Proof.
  unfold similarity_of, calculate_similarity, calculate_similarity_try.
  unfold_py. simpl. repeat case_match; simplify_eq/=; reflexivity.
Qed.

(** The write depends on the object through its folder and region only. *)
Lemma capture_write_with_self (s : State) (c : ScreenshotCapture) :
  save_path c = save_path (self s) ->
  region c = region (self s) ->
  capture_write (with_self s c)
  = (with_self (fst (capture_write s)) c, snd (capture_write s)).
Proof.
  intros Hsp Hr.
  unfold capture_write, _take_screenshot, tick, with_files, with_self.
  unfold_py. cbn [self files epoch fst snd]. rewrite Hsp.
  destruct (save_path (self s)); [| reflexivity].
  cbn [self files epoch fst snd]. rewrite Hr.
  repeat (case_match; simplify_eq/=); reflexivity.
Qed.

(** X13: lowering the threshold never turns a duplicate into a kept
    capture: a capture discarded at one threshold is discarded, with the
    same score and the same effect on the disk, at any lower one. *)
Theorem lower_threshold_keeps_duplicates
    (s s2 : State) (t' : Z) (similarity : Q) :
  t' <= similarity_threshold (self s) ->
  capture s = (s2, Ok (None, Some similarity)) ->
  capture (with_self s (with_threshold (self s) t'))
  = (with_self s2 (with_threshold (self s2) t'), Ok (None, Some similarity)).
Proof.
  intros Ht. unfold capture. unfold bind at 1 2.
  rewrite capture_write_with_self by reflexivity.
  destruct (capture_write s) as [s1 [[filename filepath] | e]] eqn:Hw;
    destruct (capture_write_cases _ _ _ Hw) as [Hself Hcase];
    [| discriminate].
  destruct Hcase as (dir & data & Hdir & Hfn & Hfp & Hfiles).
  destruct (check_after_write s1 filename filepath data (files s) Hfiles)
    as [-> | (last & Hlast & Hb & Hge & ->)]; unfold kept, dropped;
    intros H; simplify_eq. simpl.
  set (c' := with_threshold (self s) t').
  rewrite (check_duplicate (next_filename s) _ last (with_self s1 c')).
  - rewrite similarity_of_with_self.
    unfold dropped, with_files, with_self. simpl.
    rewrite Hself. reflexivity.
  - unfold has_baseline in *. simpl. rewrite <- Hself. exact Hb.
  - simpl. rewrite <- Hself. exact Hlast.
  - rewrite similarity_of_with_self. simpl.
    apply Qle_bool_iff. apply Qle_bool_iff in Hge.
    apply Qle_trans with (y := inject_Z (similarity_threshold (self s1)));
      [| exact Hge].
    rewrite <- Zle_Qle, Hself. exact Ht.
  - simpl. rewrite Hfiles, lookup_insert_eq. eauto.
Qed.

(** X14: when [cv2.resize] returns an image of the size it is asked for,
    the two images [_resize_images_to_match] returns have the same shape,
    the smaller of the two in each dimension; images of equal shape come
    back as they are. *)
Theorem resize_images_to_match_shapes (img1 img2 a b : Pixels) :
  (forall img w h img',
     cv2_resize img (w, h) = Ok img' -> shape img' = (h, w)) ->
  _resize_images_to_match img1 img2 = Ok (a, b) ->
  shape a = shape b /\
  shape a = (Z.min (fst (shape img1)) (fst (shape img2)),
             Z.min (snd (shape img1)) (snd (shape img2))) /\
  (shape img1 = shape img2 -> a = img1 /\ b = img2).
Proof.
  intros Hresize. unfold _resize_images_to_match.
  destruct (bool_decide (shape img1 = shape img2)) eqn:Heq.
  - apply bool_decide_eq_true in Heq. intros H. simplify_eq.
    repeat split; auto.
    rewrite <- Heq, !Z.min_id. destruct (shape a); reflexivity.
  - apply bool_decide_eq_false in Heq.
    destruct (cv2_resize img1 _) as [a' | e] eqn:Ha; [| discriminate].
    destruct (cv2_resize img2 _) as [b' | e] eqn:Hb; [| discriminate].
    intros H. simplify_eq.
    rewrite (Hresize _ _ _ _ Ha), (Hresize _ _ _ _ Hb).
    repeat split; auto; contradiction.
Qed.


End ComparatorFacts.

(** ** Whole runs of the worker *)

Section RunFacts.

Context {P : Platform}.

(** Every capture reads the clock for its file name: the epoch moves on,
    and only forward. *)
Lemma capture_epoch (s s1 : State) (r : result (option string * option Q)) :
  capture s = (s1, r) -> (epoch s < epoch s1)%nat.
Proof.
  unfold capture. unfold bind at 1.
  destruct (capture_write s) as [s0 [[filename filepath] | e]] eqn:Hw.
  - assert (He : (epoch s < epoch s0)%nat).
    { revert Hw. unfold capture_write, _take_screenshot, tick, with_files.
      unfold_py. intros H.
      repeat (case_match; simplify_eq/=); lia. }
    destruct (capture_write_cases _ _ _ Hw)
      as [_ (dir & data & _ & _ & _ & Hfiles)].
    destruct (check_after_write s0 filename filepath data (files s) Hfiles)
      as [-> | (last & _ & _ & _ & ->)]; unfold kept, dropped;
      intros H; simplify_eq; simpl; exact He.
  - revert Hw. unfold capture_write, _take_screenshot, tick, with_files.
    unfold_py. intros Hw H.
    repeat (case_match; simplify_eq/=); lia.
Qed.

(** A pass that goes on to the next one: the capture returned, the time
    read after it was short of the duration, and the worker slept. *)
Lemma iteration_continue (t0 : Q) (w w' : Worker) :
  iteration t0 w = (w', Ok Continue) ->
  exists s1 r,
    capture (session w) = (s1, Ok r) /\
    Qle_bool (inject_Z (duration (self s1))) (time_at (epoch s1) - t0)
    = false /\
    epoch (session w') = S (S (epoch s1)) /\
    self (session w') = self s1.
Proof.
  unfold iteration, in_session, root_after, incr_count, incr_duplicate_count,
    time_time, time_sleep, tick, float_div, _process_capture_result.
  unfold_py.
  destruct (capture (session w)) as [s1 [[filename similarity] | msg]];
    [| intros H; simplify_eq].
  cbv beta iota zeta. cbn [session self epoch].
  destruct (duration (self s1) =? 0)%Z; [intros H; simplify_eq |].
  intros H. exists s1, (filename, similarity).
  destruct filename; simpl in H;
    destruct (Qle_bool _ _) eqn:Hq; simpl in H; simplify_eq;
    destruct (interval (self s1) <? 0)%Z; simpl in H; simplify_eq;
    repeat split; reflexivity.
Qed.

Lemma worker_loop_returns (t0 : Q) (d : Z) (N : nat) :
  (forall n, (N <= n)%nat -> (inject_Z d <= time_at n - t0)%Q) ->
  forall (fuel : nat) (w : Worker),
    duration (self (session w)) = d ->
    (1 + (N - epoch (session w)) <= fuel)%nat ->
    exists w' r, worker_loop fuel t0 w = Some (w', r).
Proof.
  intros Hclock. induction fuel as [| fuel IH]; intros w Hd Hfuel; [lia |].
  simpl. destruct (capturing_at (epoch (session w))); [| eauto].
  destruct (iteration t0 w) as [w1 [[] | msg]] eqn:Hit; eauto.
  destruct (iteration_continue _ _ _ Hit) as (s1 & r & Hc & Hq & He & Hself).
  destruct (capture_config _ _ _ Hc) as (Hdur & _ & _).
  pose proof (capture_epoch _ _ _ Hc) as Hep.
  destruct (le_lt_dec N (epoch s1)) as [Hpast | Hbefore].
  - exfalso. specialize (Hclock _ Hpast).
    rewrite <- Hd, <- Hdur in Hclock.
    apply Qle_bool_iff in Hclock. congruence.
  - apply IH; [rewrite Hself, Hdur; exact Hd | lia].
Qed.

Lemma worker_never_raises
    (fuel : nat) (s : State) (w : Worker) (r : result unit) :
  _capture_worker fuel s = Some (w, r) -> r = Ok tt.
Proof.
  unfold _capture_worker, time_time, tick. unfold_py. simpl.
  set (s0 := {| self := self s; files := files s; epoch := S (epoch s) |}).
  destruct (worker_loop fuel (time_at (epoch s)) (enter s0))
    as [[w1 r1] |] eqn:Hloop; [| discriminate].
  destruct (worker_loop_invariant _ _ _ _ _ _
              (enter_invariant (time_at (epoch s)) s0) Hloop) as (_ & ->).
  unfold root_after, modify. intros H. simplify_eq. reflexivity.
Qed.

(** X16: however a run ends, the worker thread does not die of an
    exception, the summary is the last callback it schedules and the only
    one, and its two totals are the numbers of kept and of duplicate
    captures reported before it. *)
Theorem run_ends_with_summary
    (fuel : nat) (s : State) (w : Worker) (r : result unit) :
  _capture_worker fuel s = Some (w, r) ->
  r = Ok tt /\
  exists evs,
    queue w
    = (evs ++ [capture_complete (tally is_kept evs)
                 (tally is_duplicate evs)])%list /\
    tally is_summary evs = 0.
Proof.
  unfold _capture_worker, time_time, tick. unfold_py. simpl.
  set (s0 := {| self := self s; files := files s; epoch := S (epoch s) |}).
  destruct (worker_loop fuel (time_at (epoch s)) (enter s0))
    as [[w1 r1] |] eqn:Hloop; [| discriminate].
  destruct (worker_loop_invariant _ _ _ _ _ _
              (enter_invariant (time_at (epoch s)) s0) Hloop)
    as ((_ & _ & Hk & Hdup & Hsum) & ->).
  unfold root_after, modify. intros H. simplify_eq.
  split; [reflexivity |]. exists (queue w1). simpl.
  rewrite Hk, Hdup. auto.
Qed.

(** X17: a run ends: if from some epoch [N] on the clock reads at least
    [duration] past the start, the worker returns within [N + 1] passes
    through its loop, whatever the captures do. *)
Theorem run_ends_when_clock_passes (N : nat) (s : State) :
  (forall n, (N <= n)%nat ->
     (inject_Z (duration (self s)) <= time_at n - time_at (epoch s))%Q) ->
  forall fuel, (N < fuel)%nat ->
    exists w, _capture_worker fuel s = Some (w, Ok tt).
Proof.
  intros Hclock fuel Hfuel.
  destruct (_capture_worker fuel s) as [[w r] |] eqn:Hrun.
  - rewrite (worker_never_raises fuel s w r Hrun). eauto.
  - exfalso. revert Hrun.
    unfold _capture_worker, time_time, tick. unfold_py. simpl.
    set (s0 := {| self := self s; files := files s; epoch := S (epoch s) |}).
    destruct (worker_loop_returns (time_at (epoch s)) (duration (self s)) N
                Hclock fuel (enter s0)) as (w' & r' & ->);
      [reflexivity | simpl; lia |].
    destruct r'; discriminate.
Qed.

(** What a pass through the body leaves of the session: what the capture
    left, but for the clock. *)
Lemma iteration_session (t0 : Q) (w w' : Worker) (r : result Flow) :
  iteration t0 w = (w', r) ->
  exists s1 r0,
    capture (session w) = (s1, r0) /\
    files (session w') = files s1 /\
    self (session w') = self s1.
Proof.
  unfold iteration, in_session, root_after, incr_count, incr_duplicate_count,
    time_time, time_sleep, tick, float_div, _process_capture_result.
  unfold_py.
  destruct (capture (session w)) as [s1 [[filename similarity] | msg]];
    [| intros H; simplify_eq; eauto].
  cbv beta iota zeta. cbn [session self epoch].
  intros H. exists s1, (Ok (filename, similarity)).
  destruct (duration (self s1) =? 0)%Z; [simplify_eq; auto |].
  destruct filename; simpl in H;
    destruct (Qle_bool _ _); simpl in H; simplify_eq; auto;
    destruct (interval (self s1) <? 0)%Z; simpl in H; simplify_eq; auto.
Qed.

Lemma capture_save_path (s s' : State)
    (r : result (option string * option Q)) :
  capture s = (s', r) -> save_path (self s') = save_path (self s).
Proof.
  unfold capture. unfold bind at 1.
  destruct (capture_write s) as [s1 [[filename filepath] | e]] eqn:Hw;
    destruct (capture_write_cases _ _ _ Hw) as [Hself Hcase].
  - destruct Hcase as (dir & data & _ & _ & _ & Hfiles).
    destruct (check_after_write s1 filename filepath data (files s) Hfiles)
      as [-> | (last & _ & _ & _ & ->)]; unfold kept, dropped;
      intros H; simplify_eq; simpl; rewrite Hself; reflexivity.
  - intros H. simplify_eq. rewrite Hself. reflexivity.
Qed.

Lemma capture_foreign_file (s s' : State)
    (r : result (option string * option Q)) (dir p : string) :
  save_path (self s) = Some dir ->
  (forall n, p <> os_path_join dir ("screenshot_" ++ timestamp_at n ++ ".png")) ->
  capture s = (s', r) ->
  files s' !! p = files s !! p.
Proof.
  intros Hdir Hp. unfold capture. unfold bind at 1.
  destruct (capture_write s) as [s1 [[filename filepath] | e]] eqn:Hw;
    destruct (capture_write_cases _ _ _ Hw) as [Hself Hcase].
  - destruct Hcase as (dir' & data & Hdir' & Hfn & Hfp & Hfiles).
    rewrite Hdir in Hdir'.
    assert (Hne : filepath <> p).
    { simplify_eq. intros Heq. apply (Hp (epoch s)). symmetry. exact Heq. }
    destruct (check_after_write s1 filename filepath data (files s) Hfiles)
      as [-> | (last & _ & _ & _ & ->)]; unfold kept, dropped;
      intros H; simplify_eq; simpl; rewrite Hfiles.
    + rewrite lookup_insert_ne; auto.
    + rewrite lookup_delete_ne, lookup_insert_ne; auto.
  - intros H. simplify_eq. destruct Hcase as [-> _]. reflexivity.
Qed.

Lemma worker_loop_foreign_file (t0 : Q) (dir p : string) :
  (forall n, p <> os_path_join dir ("screenshot_" ++ timestamp_at n ++ ".png")) ->
  forall (fuel : nat) (w w' : Worker) (r : result unit),
    save_path (self (session w)) = Some dir ->
    worker_loop fuel t0 w = Some (w', r) ->
    files (session w') !! p = files (session w) !! p.
Proof.
  intros Hp. induction fuel as [| fuel IH]; intros w w' r Hdir Hloop;
    [discriminate |].
  simpl in Hloop.
  destruct (capturing_at (epoch (session w))); [| simplify_eq; reflexivity].
  destruct (iteration t0 w) as [w1 r1] eqn:Hit.
  destruct (iteration_session _ _ _ _ Hit) as (s1 & r0 & Hc & Hf & Hs).
  assert (Hstep : files (session w1) !! p = files (session w) !! p)
    by (rewrite Hf; exact (capture_foreign_file _ _ _ _ _ Hdir Hp Hc)).
  assert (Hdir1 : save_path (self (session w1)) = Some dir)
    by (rewrite Hs, (capture_save_path _ _ _ Hc); exact Hdir).
  destruct r1 as [[] | msg]; simplify_eq; auto.
  rewrite <- Hstep. eauto.
Qed.

(** X26: a run leaves the user's other files alone: a path that is not a
    screenshot name of the configured folder holds after the run what it
    held before, however the run went. *)
Theorem run_leaves_other_files_alone
    (fuel : nat) (s : State) (w : Worker) (r : result unit)
    (dir p : string) :
  save_path (self s) = Some dir ->
  (forall n, p <> os_path_join dir ("screenshot_" ++ timestamp_at n ++ ".png")) ->
  _capture_worker fuel s = Some (w, r) ->
  files (session w) !! p = files s !! p.
Proof.
  intros Hdir Hp.
  unfold _capture_worker, time_time, tick. unfold_py. simpl.
  set (s0 := {| self := self s; files := files s; epoch := S (epoch s) |}).
  destruct (worker_loop fuel (time_at (epoch s)) (enter s0))
    as [[w1 r1] |] eqn:Hloop; [| discriminate].
  pose proof (worker_loop_foreign_file _ dir p Hp fuel (enter s0) w1 r1
                Hdir Hloop) as Hf.
  destruct r1; unfold root_after, modify; intros H; simplify_eq; exact Hf.
Qed.

Lemma time_time_eq (s s0 : State) (t0 : Q) :
  time_time s = (s0, Ok t0) ->
  s0 = {| self := self s; files := files s; epoch := S (epoch s) |} /\
  t0 = time_at (epoch s).
Proof.
  unfold time_time, tick. unfold_py. intros H. simplify_eq. auto.
Qed.

(** X18: stopping is cooperative and final: once the worker finds the
    flag cleared at the head of its loop it captures nothing more, and
    schedules the summary with the counts reached. *)
Theorem stop_flag_ends_run
    (k n : nat) (s s0 : State) (t0 : Q) (w : Worker) :
  time_time s = (s0, Ok t0) ->
  passes k t0 (enter s0) = Some w ->
  capturing_at (epoch (session w)) = false ->
  exists final,
    _capture_worker (k + S n) s = Some (final, Ok tt) /\
    queue final
    = (queue w ++ [capture_complete (count w) (duplicate_count w)])%list /\
    session final = session w.
Proof.
  intros Ht Hp Hflag. eexists. split.
  - unfold _capture_worker. rewrite Ht.
    rewrite (worker_loop_passes t0 k (S n) _ _ Hp). simpl.
    rewrite Hflag. unfold root_after, modify. reflexivity.
  - simpl. auto.
Qed.

(** X19: with a duration of 0 the first capture is taken and stays on
    disk, but the division for the percentage fails: the run reports that
    error instead of the capture and its summary counts nothing. *)
Theorem zero_duration_run
    (n : nat) (s s0 s1 : State) (t0 : Q) (r : option string * option Q) :
  duration (self s) = 0 ->
  time_time s = (s0, Ok t0) ->
  capturing_at (epoch s0) = true ->
  capture s0 = (s1, Ok r) ->
  exists final,
    _capture_worker (S n) s = Some (final, Ok tt) /\
    queue final
    = [show_error "float division by zero"; capture_complete 0 0] /\
    files (session final) = files s1.
Proof.
  intros Hd Ht Hflag Hc.
  destruct (time_time_eq _ _ _ Ht) as [Hs0 _].
  destruct (capture_config _ _ _ Hc) as (Hdur & _ & _).
  assert (Hz : duration (self s1) = 0) by (rewrite Hdur, Hs0; exact Hd).
  eexists. split.
  - unfold _capture_worker. rewrite Ht. simpl. rewrite Hflag.
    unfold iteration, in_session, root_after, time_time, tick, float_div,
      _process_capture_result.
    unfold_py. cbn [session enter]. rewrite Hc. destruct r as [fn sim].
    cbv beta iota zeta. cbn [session self epoch]. rewrite Hz. simpl.
    reflexivity.
  - simpl. auto.
Qed.

(** X20: with a negative interval the first capture is reported, then
    [time.sleep] refuses the negative length: the run reports that error
    and ends after this one capture. *)
Theorem negative_interval_run
    (n : nat) (s s0 s1 : State) (t0 : Q) (r : option string * option Q) :
  interval (self s) < 0 ->
  duration (self s) <> 0 ->
  time_time s = (s0, Ok t0) ->
  capturing_at (epoch s0) = true ->
  capture s0 = (s1, Ok r) ->
  (time_at (epoch s1) - t0 < inject_Z (duration (self s)))%Q ->
  exists final,
    _capture_worker (S n) s = Some (final, Ok tt) /\
    queue final
    = (reported (enter s0) t0 (time_at (epoch s1)) (duration (self s)) r
       ++ [show_error "sleep length must be non-negative";
           capture_complete (if fst r is Some _ then 1 else 0)
             (if fst r is Some _ then 0 else 1)])%list.
Proof.
  intros Hi Hd Ht Hflag Hc Hlt.
  destruct (time_time_eq _ _ _ Ht) as [Hs0 _].
  destruct (capture_config _ _ _ Hc) as (Hdur & Hint & _).
  assert (Hd1 : duration (self s1) = duration (self s))
    by (rewrite Hdur, Hs0; reflexivity).
  assert (Hi1 : (interval (self s1) <? 0)%Z = true)
    by (apply Z.ltb_lt; rewrite Hint, Hs0; exact Hi).
  assert (Hnz : (duration (self s) =? 0)%Z = false) by (apply Z.eqb_neq; exact Hd).
  assert (Hq : Qle_bool (inject_Z (duration (self s)))
                 (time_at (epoch s1) - t0) = false).
  { destruct (Qle_bool _ _) eqn:Hb; [| reflexivity].
    apply Qle_bool_iff in Hb. exfalso. exact (Qlt_not_le _ _ Hlt Hb). }
  destruct r as [[filename |] similarity]; eexists;
    (split;
     [ unfold _capture_worker; rewrite Ht; simpl; rewrite Hflag;
       unfold iteration, in_session, root_after, incr_count,
         incr_duplicate_count, time_time, time_sleep, tick, float_div,
         _process_capture_result;
       unfold_py; cbn [session enter]; rewrite Hc;
       cbv beta iota zeta; cbn [session self epoch];
       rewrite Hd1, Hnz;
       cbn [session self epoch count duplicate_count queue];
       rewrite Hq; cbn [session self epoch]; rewrite Hi1; reflexivity
     | unfold reported; reflexivity ]).
Qed.

End RunFacts.

(** ** The callbacks on the UI thread *)

Section UiFacts.

Context {F : Formats}.

Import ScreenshotApp.

Lemma add_recent_list (a : App) (text : string) :
  (length (recent_listbox a) <= MAX_RECENT_ITEMS)%nat ->
  recent_listbox (add_recent a text)
  = firstn MAX_RECENT_ITEMS
      ((clock_text (readings a) ++ " - " ++ text) :: recent_listbox a).
Proof.
  intros Hlen. unfold add_recent, _limit_recent_list, set_recent.
  cbn [recent_listbox readings].
  set (l := (clock_text (readings a) ++ " - " ++ text) :: recent_listbox a).
  assert (Hl : length l = S (length (recent_listbox a))) by reflexivity.
  destruct (MAX_RECENT_ITEMS <? length l)%nat eqn:Hfull.
  - apply Nat.ltb_lt in Hfull. cbn [recent_listbox].
    rewrite removelast_firstn_len. f_equal. lia.
  - apply Nat.ltb_ge in Hfull. symmetry. apply firstn_all2. exact Hfull.
Qed.

Lemma add_recent_bounded (a : App) (text : string) :
  (length (recent_listbox a) <= MAX_RECENT_ITEMS)%nat ->
  (length (recent_listbox (add_recent a text)) <= MAX_RECENT_ITEMS)%nat.
Proof.
  intros Hlen. rewrite add_recent_list by exact Hlen.
  rewrite length_firstn. lia.
Qed.

Lemma stop_capture_recent (a : App) :
  recent_listbox (stop_capture a) = recent_listbox a.
Proof. unfold stop_capture. destruct (negb (is_capturing a)); reflexivity. Qed.

Lemma dispatch_bounded (a : App) (ev : Event) :
  (length (recent_listbox a) <= MAX_RECENT_ITEMS)%nat ->
  (length (recent_listbox (dispatch a ev)) <= MAX_RECENT_ITEMS)%nat.
Proof.
  intros Hlen. destruct ev as [c e r p f | [sim |] | e r p | msg | k d];
    cbn [dispatch]; auto.
  - unfold update_progress. destruct (String.eqb f ""); [exact Hlen |].
    apply add_recent_bounded. exact Hlen.
  - apply add_recent_bounded. exact Hlen.
  - unfold show_error. rewrite stop_capture_recent. exact Hlen.
Qed.

(** X21: the list of recent captures never grows past
    [MAX_RECENT_ITEMS]: if it holds at most that many entries, it still
    does after any sequence of callbacks. *)
Theorem recent_list_bounded (a : App) (evs : list Event) :
  (length (recent_listbox a) <= MAX_RECENT_ITEMS)%nat ->
  (length (recent_listbox (dispatch_all a evs)) <= MAX_RECENT_ITEMS)%nat.
Proof.
  unfold dispatch_all. revert a.
  induction evs as [| ev evs IH]; intros a Hlen; [exact Hlen |].
  simpl. apply IH. apply dispatch_bounded. exact Hlen.
Qed.

(** X22: a kept capture goes to the top of the list of recent captures,
    stamped with the time, above the entries that were there; the oldest
    entry is dropped when that makes more than [MAX_RECENT_ITEMS]. *)
Theorem update_progress_lists_newest_first
    (a : App) (count elapsed remaining : Z) (progress : Q)
    (filename : string) :
  filename <> "" ->
  (length (recent_listbox a) <= MAX_RECENT_ITEMS)%nat ->
  recent_listbox (update_progress a count elapsed remaining progress filename)
  = firstn MAX_RECENT_ITEMS
      ((clock_text (readings a) ++ " - " ++ filename) :: recent_listbox a).
Proof.
  intros Hname Hlen. unfold update_progress.
  apply String.eqb_neq in Hname. rewrite Hname.
  rewrite add_recent_list by exact Hlen. reflexivity.
Qed.

(** X23: the buttons follow the flag: in the window as created the
    start button is enabled exactly when [is_capturing] is false and the
    stop button exactly when it is true, and starting, stopping and every
    callback keep it so. *)
Theorem buttons_follow_flag_kept :
  buttons_follow_flag created /\
  forall a : App,
    buttons_follow_flag a ->
    buttons_follow_flag (_update_ui_for_start a) /\
    buttons_follow_flag (stop_capture a) /\
    forall ev, buttons_follow_flag (dispatch a ev).
Proof.
  split; [split; reflexivity |].
  intros a [Hs Ht]. unfold buttons_follow_flag in *.
  split; [split; reflexivity |]. split.
  - unfold stop_capture. destruct (is_capturing a) eqn:Hc; simpl; auto.
    rewrite Hs, Ht, Hc. auto.
  - intros [c e r p f | [sim |] | e r p | msg | k d]; cbn [dispatch];
      unfold update_progress, update_duplicate_status, update_time_info,
        show_error, capture_complete, stop_capture, add_recent,
        _limit_recent_list, messagebox;
      repeat case_match; simpl; auto.
Qed.

Lemma dispatch_all_app (a : App) (evs1 evs2 : list Event) :
  dispatch_all a (evs1 ++ evs2) = dispatch_all (dispatch_all a evs1) evs2.
Proof. unfold dispatch_all. apply fold_left_app. Qed.

Lemma last_kept_count_app (evs1 evs2 : list Event) (c0 : Z) :
  last_kept_count (evs1 ++ evs2) c0
  = last_kept_count evs2 (last_kept_count evs1 c0).
Proof. unfold last_kept_count. apply fold_left_app. Qed.

Lemma dispatch_count_label (a : App) (ev : Event) :
  count_label (dispatch a ev)
  = match kept_count ev with
    | Some c => format_int c ++ "枚"
    | None => count_label a
    end.
Proof.
  destruct ev as [c e r p f | [sim |] | e r p | msg | k d];
    cbn [dispatch kept_count];
    unfold update_progress, update_duplicate_status, update_time_info,
      show_error, capture_complete, stop_capture, add_recent,
      _limit_recent_list, messagebox;
    repeat case_match; reflexivity.
Qed.

(** The count label after a queue: the count of its last kept capture, or
    the label it had. *)
Lemma count_label_after (evs : list Event) :
  forall a : App,
    count_label (dispatch_all a evs)
    = (if (tally is_kept evs =? 0)%Z then count_label a
       else format_int (last_kept_count evs 0) ++ "枚").
Proof.
  induction evs as [| ev evs IH] using rev_ind; intros a; [reflexivity |].
  rewrite dispatch_all_app, tally_app, last_kept_count_app.
  unfold dispatch_all at 1. cbn [fold_left].
  rewrite dispatch_count_label, IH.
  assert (Hnn : 0 <= tally is_kept evs) by (unfold tally; lia).
  destruct ev as [c e r p f | [sim |] | e r p | msg | k d];
    try (change (tally is_kept [_]) with 0; rewrite Z.add_0_r; reflexivity).
  change (tally is_kept [_]) with 1.
  replace (tally is_kept evs + 1 =? 0)%Z with false
    by (symmetry; apply Z.eqb_neq; lia).
  reflexivity.
Qed.

End UiFacts.

(** ** A run as the UI sees it *)

Section RunOnScreen.

Context {P : Platform} {F : Formats}.

(** The kept captures are numbered as they are reported: the last count
    reported is the worker's counter. *)
Lemma iteration_last_kept (t0 : Q) (w w' : Worker) (r : result Flow) :
  last_kept_count (queue w) 0 = count w ->
  iteration t0 w = (w', r) ->
  last_kept_count (queue w') 0 = count w'.
Proof.
  intros Hk Hit.
  destruct (capture (session w)) as [s1 [res | msg]] eqn:Hc.
  - destruct (Z.eq_dec (duration (self s1)) 0) as [Hz | Hnz].
    + destruct (iteration_zero_duration t0 w s1 res Hc Hz)
        as (w1 & Hit1 & Hq & Hk1 & _).
      rewrite Hit1 in Hit. simplify_eq.
      rewrite Hq, Hk1, last_kept_count_app, Hk. reflexivity.
    + destruct (iteration_ok t0 w s1 res Hc Hnz)
        as (w1 & flow & rest & Hit1 & Hq & Hrest & Hk1 & _).
      rewrite Hit1 in Hit. simplify_eq.
      rewrite Hq, Hk1, !last_kept_count_app, Hk.
      destruct res as [[filename |] similarity];
        destruct Hrest as [-> | (msg & -> & _)]; cbn; lia.
  - rewrite (iteration_raise t0 w s1 msg Hc) in Hit. simplify_eq.
    cbn [queue count]. rewrite last_kept_count_app, Hk. reflexivity.
Qed.

Lemma worker_loop_last_kept (t0 : Q) (fuel : nat) :
  forall (w w' : Worker) (r : result unit),
    last_kept_count (queue w) 0 = count w ->
    worker_loop fuel t0 w = Some (w', r) ->
    last_kept_count (queue w') 0 = count w'.
Proof.
  induction fuel as [| fuel IH]; intros w w' r Hk Hloop; [discriminate |].
  simpl in Hloop.
  destruct (capturing_at (epoch (session w))); [| simplify_eq; exact Hk].
  destruct (iteration t0 w) as [w1 r1] eqn:Hit.
  pose proof (iteration_last_kept _ _ _ _ Hk Hit) as Hk1.
  destruct r1 as [[] | msg]; [eauto | simplify_eq; auto | simplify_eq; auto].
Qed.

(** The queue of a run that returned: what the loop scheduled, then the
    summary of its counters. *)
Lemma run_queue_shape
    (fuel : nat) (s : State) (w : Worker) (r : result unit) :
  _capture_worker fuel s = Some (w, r) ->
  exists w1,
    queue w
    = (queue w1
       ++ [capture_complete (count w1) (duplicate_count w1)])%list /\
    counts_agree w1 /\
    last_kept_count (queue w1) 0 = count w1.
Proof.
  unfold _capture_worker, time_time, tick. unfold_py. simpl.
  set (s0 := {| self := self s; files := files s; epoch := S (epoch s) |}).
  destruct (worker_loop fuel (time_at (epoch s)) (enter s0))
    as [[w1 r1] |] eqn:Hloop; [| discriminate].
  destruct (worker_loop_invariant _ _ _ _ _ _
              (enter_invariant (time_at (epoch s)) s0) Hloop)
    as ((_ & _ & Hagree) & ->).
  assert (Hlast : last_kept_count (queue w1) 0 = count w1)
    by (apply (worker_loop_last_kept (time_at (epoch s)) fuel
                 (enter s0) w1 (Ok tt));
        [reflexivity | exact Hloop]).
  unfold root_after, modify. intros H. simplify_eq.
  exists w1. simpl. auto.
Qed.

(** X24: when the callbacks of a run that returned have all been handled,
    whatever the window showed before, no capture is running, the start
    button is enabled and the stop button disabled, the status reads
    complete, and the last callback handled was the completion dialog
    with the totals of kept and duplicate captures the run reported. *)
Theorem ui_idle_after_run
    (fuel : nat) (s : State) (w : Worker) (r : result unit)
    (a : ScreenshotApp.App) :
  _capture_worker fuel s = Some (w, r) ->
  let a' := dispatch_all a (queue w) in
  ScreenshotApp.is_capturing a' = false /\
  ScreenshotApp.start_button a' = true /\
  ScreenshotApp.stop_button a' = false /\
  ScreenshotApp.status_label a' = "完了" /\
  exists a0,
    a' = ScreenshotApp.capture_complete a0
           (tally is_kept (queue w)) (tally is_duplicate (queue w)).
Proof.
  intros Hrun.
  destruct (run_queue_shape _ _ _ _ Hrun) as (w1 & Hq & (Hk & Hd & _) & _).
  cbv zeta. rewrite Hq, dispatch_all_app, !tally_app.
  change (tally is_kept [_]) with 0. change (tally is_duplicate [_]) with 0.
  rewrite !Z.add_0_r, <- Hk, <- Hd.
  unfold dispatch_all at 1 2 3 4 5. cbn [fold_left dispatch].
  repeat split. eauto.
Qed.

(** X25: after a run the count label agrees with the summary: it shows
    the total of kept captures when there is one; when the run kept
    nothing the label is not touched and still shows what it showed
    before the run. *)
Theorem count_label_agrees_with_summary
    (fuel : nat) (s : State) (w : Worker) (r : result unit)
    (a : ScreenshotApp.App) :
  _capture_worker fuel s = Some (w, r) ->
  ScreenshotApp.count_label (dispatch_all a (queue w))
  = (if (tally is_kept (queue w) =? 0)%Z then ScreenshotApp.count_label a
     else format_int (tally is_kept (queue w)) ++ "枚").
Proof.
  intros Hrun.
  destruct (run_queue_shape _ _ _ _ Hrun) as (w1 & Hq & (Hk & _ & _) & Hl).
  rewrite count_label_after.
  rewrite Hq, tally_app, last_kept_count_app.
  change (tally is_kept [_]) with 0. rewrite Z.add_0_r.
  cbn. rewrite Hl, Hk. reflexivity.
Qed.

End RunOnScreen.

(** ** The further properties at work on concrete inputs *)

Lemma selected_region_on_screen_witness :
  exists x y width height,
    [50; 200; 50; 700] = [x; y; width; height] /\
    0 <= x /\ 1 <= width /\ x + width <= 1920 /\
    0 <= y /\ 1 <= height /\ y + height <= 1080.
Proof.
  apply (@selected_region_on_screen Demo.still Samples.dragged
           [50; 200; 50; 700]); [simpl; lia | simpl; lia | reflexivity].
Defined.

Lemma selected_region_passes_validation_witness :
  exists x y width height,
    [50; 200; 50; 700] = [x; y; width; height] /\
    @_validate_region Demo.still [50; 200; 50; 700]
    = Ok (x, y, width, height).
Proof.
  apply (@selected_region_passes_validation Demo.still Samples.dragged
           [50; 200; 50; 700]); [simpl; lia | simpl; lia | reflexivity].
Defined.

Lemma adjust_region_keeps_size_witness :
  exists x' y',
    @_adjust_region_to_screen Demo.still 1900 (-10) 100 50
    = [x'; y'; 100; 50] /\
    0 <= x' /\ x' + 100 <= 1920 /\ 0 <= y' /\ y' + 50 <= 1080 /\
    (0 <= 1900 /\ 1900 + 100 <= 1920 -> x' = 1900) /\
    (0 <= -10 /\ -10 + 50 <= 1080 -> y' = -10).
Proof.
  apply (@adjust_region_keeps_size Demo.still 1900 (-10) 100 50);
    simpl; lia.
Defined.

Lemma click_without_drag_selects_one_pixel_witness :
  @_calculate_selected_region Demo.still
    (on_release (on_click selector_init {| event_x := 2500; event_y := 7 |})
       {| event_x := 2500; event_y := 7 |})
  = Some [1919; 7; 1; 1].
Proof.
  apply (@click_without_drag_selects_one_pixel Demo.still selector_init
           {| event_x := 2500; event_y := 7 |}); simpl; lia.
Defined.

Lemma take_screenshot_region_on_screen_witness :
  exists x' y' width' height',
    @_take_screenshot Demo.still (Samples.with_region [-5; 1000; 4000; 500] 0)
    = ({| self := setup init "out" 60 5 (Some [-5; 1000; 4000; 500]) 95;
          files := ∅; epoch := 1 |},
       Ok 7) /\
    0 <= x' /\ 1 <= width' /\ x' + width' <= 1920 /\
    0 <= y' /\ 1 <= height' /\ y' + height' <= 1080.
Proof.
  destruct (@take_screenshot_region_on_screen Demo.still
              (Samples.with_region [-5; 1000; 4000; 500] 0)
              (-5) 1000 4000 500)
    as (x' & y' & w' & h' & Heq & Hb);
    [simpl; lia | simpl; lia | reflexivity |].
  exists x', y', w', h'. split; [exact Heq | exact Hb].
Defined.


Lemma capture_touches_one_file_witness :
  files (fst (capture Demo.still_second)) !! "out/screenshot_0.png"
  = files Demo.still_second !! "out/screenshot_0.png".
Proof.
  apply (@capture_touches_one_file Demo.still Demo.still_second
           (fst (capture Demo.still_second))
           (snd (capture Demo.still_second)) "out" "out/screenshot_0.png").
  - reflexivity.
  - vm_compute. reflexivity.
  - vm_compute. discriminate.
Defined.

Lemma capture_duplicate_restores_disk_witness :
  exists dir,
    save_path (self Demo.still_second) = Some dir /\
    files (fst (capture Demo.still_second))
    = delete (@os_path_join Demo.still dir (@next_filename Demo.still Demo.still_second))
        (files Demo.still_second) /\
    (files Demo.still_second
       !! @os_path_join Demo.still dir (@next_filename Demo.still Demo.still_second) = None ->
     files (fst (capture Demo.still_second)) = files Demo.still_second) /\
    self (fst (capture Demo.still_second)) = self Demo.still_second.
Proof.
  apply (@capture_duplicate_restores_disk Demo.still Demo.still_second
           (fst (capture Demo.still_second)) (Some (1 * 100)%Q)).
  vm_compute. reflexivity.
Defined.

Lemma capture_kept_on_disk_witness :
  exists dir data,
    save_path (self Demo.still_start) = Some dir /\
    "screenshot_0.png" = @next_filename Demo.still Demo.still_start /\
    @None Q = None /\
    files Demo.still_second
    = <[@os_path_join Demo.still dir "screenshot_0.png" := data]>
        (files Demo.still_start) /\
    files Demo.still_second !! @os_path_join Demo.still dir "screenshot_0.png"
    = Some data /\
    last_screenshot_path (self Demo.still_second)
    = Some (@os_path_join Demo.still dir "screenshot_0.png").
Proof.
  apply (@capture_kept_on_disk Demo.still Demo.still_start
           Demo.still_second "screenshot_0.png" None).
  vm_compute. reflexivity.
Defined.


Lemma lower_threshold_keeps_duplicates_witness :
  capture (with_self Demo.still_second
             (with_threshold (self Demo.still_second) 50))
  = (with_self (fst (capture Demo.still_second))
       (with_threshold (self (fst (capture Demo.still_second))) 50),
     Ok (None, Some (1 * 100)%Q)).
Proof.
  apply (@lower_threshold_keeps_duplicates Demo.still Demo.still_second
           (fst (capture Demo.still_second)) 50 (1 * 100)%Q).
  - vm_compute. discriminate.
  - vm_compute. reflexivity.
Defined.

Lemma resize_images_to_match_shapes_witness :
  @shape Samples.sized (50, 200) = @shape Samples.sized (50, 200) /\
  @shape Samples.sized (50, 200) = (Z.min 100 50, Z.min 200 300) /\
  (@shape Samples.sized (100, 200) = @shape Samples.sized (50, 300) ->
   (50, 200) = (100, 200) /\ (50, 200) = (50, 300)).
Proof.
  apply (@resize_images_to_match_shapes Samples.sized
           (100, 200) (50, 300) (50, 200) (50, 200)).
  - intros img w h img' H. simpl in H. injection H as <-. reflexivity.
  - reflexivity.
Defined.

Lemma run_ends_with_summary_witness :
  exists (w : @Worker Demo.still) (r : result unit),
    _capture_worker 10 Demo.still_start = Some (w, r) /\
    r = Ok tt /\
    exists evs,
      queue w
      = (evs ++ [capture_complete (tally is_kept evs)
                   (tally is_duplicate evs)])%list /\
      tally is_summary evs = 0.
Proof.
  destruct (_capture_worker 10 Demo.still_start) as [[w r] |] eqn:Hrun.
  - exists w, r. split; [reflexivity |].
    exact (run_ends_with_summary 10 Demo.still_start w r Hrun).
  - exfalso. revert Hrun. vm_compute. discriminate.
Defined.

Lemma run_ends_when_clock_passes_witness :
  exists w : @Worker Demo.still,
    _capture_worker 11 Demo.still_start = Some (w, Ok tt).
Proof.
  apply (@run_ends_when_clock_passes Demo.still 10 Demo.still_start);
    [| lia].
  intros n Hn. simpl. unfold Qle. simpl. lia.
Defined.

Lemma stop_flag_ends_run_witness :
  let s : @State Samples.stopping := Demo.configured 60 5 95 in
  let w := default (enter (fst (time_time s)))
             (passes 1 0%Q (enter (fst (time_time s)))) in
  exists final,
    _capture_worker (1 + 1) s = Some (final, Ok tt) /\
    queue final
    = (queue w ++ [capture_complete (count w) (duplicate_count w)])%list /\
    session final = session w.
Proof.
  cbv zeta.
  apply (@stop_flag_ends_run Samples.stopping 1 0 (Demo.configured 60 5 95)
           (fst (time_time (Demo.configured 60 5 95))) 0%Q).
  - vm_compute. reflexivity.
  - vm_compute. reflexivity.
  - vm_compute. reflexivity.
Defined.

Lemma zero_duration_run_witness :
  let s : @State Demo.still := Demo.configured 0 5 95 in
  exists final,
    _capture_worker 1 s = Some (final, Ok tt) /\
    queue final
    = [show_error "float division by zero"; capture_complete 0 0] /\
    files (session final) = files (fst (capture (fst (time_time s)))).
Proof.
  cbv zeta.
  apply (@zero_duration_run Demo.still 0 (Demo.configured 0 5 95)
           (fst (time_time (Demo.configured 0 5 95)))
           (fst (capture (fst (time_time (Demo.configured 0 5 95)))))
           0%Q (Some "screenshot_1.png", None)).
  - reflexivity.
  - vm_compute. reflexivity.
  - reflexivity.
  - vm_compute. reflexivity.
Defined.

Lemma negative_interval_run_witness :
  let s : @State Demo.still := Demo.configured 60 (-1) 95 in
  let s0 := fst (time_time s) in
  exists final,
    _capture_worker 1 s = Some (final, Ok tt) /\
    queue final
    = (reported (enter s0) 0%Q 4%Q 60 (Some "screenshot_1.png", None)
       ++ [show_error "sleep length must be non-negative";
           capture_complete 1 0])%list.
Proof.
  cbv zeta.
  apply (@negative_interval_run Demo.still 0 (Demo.configured 60 (-1) 95)
           (fst (time_time (Demo.configured 60 (-1) 95)))
           (fst (capture (fst (time_time (Demo.configured 60 (-1) 95)))))
           0%Q (Some "screenshot_1.png", None)).
  - simpl. lia.
  - simpl. lia.
  - vm_compute. reflexivity.
  - reflexivity.
  - vm_compute. reflexivity.
  - vm_compute. reflexivity.
Defined.

Lemma recent_list_bounded_witness :
  (length (ScreenshotApp.recent_listbox
             (@dispatch_all Samples.plain ScreenshotApp.created
                [update_progress 1 4 6 40%Q "screenshot_1.png";
                 update_duplicate_status (Some 100%Q)]))
   <= MAX_RECENT_ITEMS)%nat.
Proof.
  apply (@recent_list_bounded Samples.plain ScreenshotApp.created).
  simpl. lia.
Defined.

Lemma update_progress_lists_newest_first_witness :
  ScreenshotApp.recent_listbox
    (@ScreenshotApp.update_progress Samples.plain ScreenshotApp.created
       1 4 6 40%Q "screenshot_1.png")
  = firstn MAX_RECENT_ITEMS ["0 - screenshot_1.png"].
Proof.
  apply (@update_progress_lists_newest_first Samples.plain
           ScreenshotApp.created 1 4 6 40%Q "screenshot_1.png").
  - discriminate.
  - simpl. lia.
Defined.

Lemma ui_idle_after_run_witness :
  exists (w : @Worker Demo.still) (r : result unit),
    _capture_worker 10 Demo.still_start = Some (w, r) /\
    let a' := @dispatch_all Samples.plain
                (ScreenshotApp._update_ui_for_start ScreenshotApp.created)
                (queue w) in
    ScreenshotApp.is_capturing a' = false /\
    ScreenshotApp.start_button a' = true /\
    ScreenshotApp.stop_button a' = false /\
    ScreenshotApp.status_label a' = "完了" /\
    exists a0,
      a' = ScreenshotApp.capture_complete a0
             (tally is_kept (queue w)) (tally is_duplicate (queue w)).
Proof.
  destruct (_capture_worker 10 Demo.still_start) as [[w r] |] eqn:Hrun.
  - exists w, r. split; [reflexivity |].
    exact (@ui_idle_after_run Demo.still Samples.plain 10 Demo.still_start
             w r _ Hrun).
  - exfalso. revert Hrun. vm_compute. discriminate.
Defined.

Lemma count_label_agrees_with_summary_witness :
  exists (w : @Worker Demo.still) (r : result unit),
    _capture_worker 10 Demo.still_start = Some (w, r) /\
    ScreenshotApp.count_label
      (@dispatch_all Samples.plain ScreenshotApp.created (queue w))
    = (if (tally is_kept (queue w) =? 0)%Z
       then ScreenshotApp.count_label ScreenshotApp.created
       else format_int (tally is_kept (queue w)) ++ "枚").
Proof.
  destruct (_capture_worker 10 Demo.still_start) as [[w r] |] eqn:Hrun.
  - exists w, r. split; [reflexivity |].
    exact (@count_label_agrees_with_summary Demo.still Samples.plain 10
             Demo.still_start w r ScreenshotApp.created Hrun).
  - exfalso. revert Hrun. vm_compute. discriminate.
Defined.

(** The status panel after the ten-second run on the still screen. *)
Example still_run_on_screen :
  let a := @dispatch_all Samples.plain
             (ScreenshotApp._update_ui_for_start ScreenshotApp.created)
             (default [] (option_map (fun x => queue (fst x))
                            (_capture_worker 10 Demo.still_start))) in
  ScreenshotApp.count_label a = "1枚" /\
  ScreenshotApp.elapsed_label a = "14秒" /\
  ScreenshotApp.remaining_label a = "-4秒" /\
  ScreenshotApp.progress_label a = "140.0%" /\
  ScreenshotApp.status_label a = "完了" /\
  length (ScreenshotApp.recent_listbox a) = 3%nat.
Proof. vm_compute. repeat split. Qed.

Lemma run_leaves_other_files_alone_witness :
  let s : @State Demo.still :=
    {| self := setup init "out" 10 5 None 95;
       files := {[ "notes.txt" := 3 ]};
       epoch := 0 |} in
  exists (w : @Worker Demo.still) (r : result unit),
    _capture_worker 10 s = Some (w, r) /\
    files (session w) !! "notes.txt" = files s !! "notes.txt".
Proof.
  cbv zeta.
  destruct (@_capture_worker Demo.still 10
              {| self := setup init "out" 10 5 None 95;
                 files := {[ "notes.txt" := 3 ]};
                 epoch := 0 |}) as [[w r] |] eqn:Hrun.
  - exists w, r. split; [reflexivity |].
    apply (@run_leaves_other_files_alone Demo.still 10 _ w r "out"
             "notes.txt"); [reflexivity | | exact Hrun].
    intros n. simpl. discriminate.
  - exfalso. revert Hrun. vm_compute. discriminate.
Defined.

(** ** An unreadable baseline, at threshold 0 and at threshold 95 *)



Lemma confirm_selection_closes_iff_region_witness :
  (exists r sel',
     @_calculate_selected_region Demo.still Samples.dragged = Some r /\
     confirm_selection Samples.dragged = (sel', Ok None) /\
     window sel' = WindowDestroyed /\
     @_calculate_selected_region Demo.still sel' = Some r)
  \/
  (@_calculate_selected_region Demo.still Samples.dragged = None /\
   confirm_selection Samples.dragged
   = (Samples.dragged, Ok (Some "範囲を選択してください"))).
Proof.
  apply (@confirm_selection_closes_iff_region Demo.still Samples.dragged).
  reflexivity.
Defined.
